(** * pibooth.pictures: orientation, canvas sizing, backend selection,
      pictogram recolouring and asset loading

    A shallow embedding of [pibooth/pictures/__init__.py].  Python values
    are represented as follows: integers are [Z]; the dimensions of a PIL
    image, which Pillow keeps non-negative, are [N]; tuples are products;
    [None]-able arguments are [option]s; a raised exception is the [Raise]
    branch of [result]. *)

From Stdlib Require Import ZArith NArith List String Ascii Bool Lia.
From Stdlib Require Import Floats DecimalString.
From Stdlib Require Uint63.
Import ListNotations.

Open Scope Z_scope.

(** ** Exceptions *)

(** The Python exceptions that can leave this module.  [IOError] is
    Python 3's [OSError] with its subclasses: [FileNotFoundError] for a path
    that does not exist and the decode failure of [PIL.Image.open];
    [PygameError] is [pygame.error]. *)
Inductive exception : Type :=
| IndexError
| ValueError
| AssertionError
| IOError
| PygameError
| ZeroDivisionError
| OverflowError.

Inductive result (A : Type) : Type :=
| Ok (a : A)
| Raise (e : exception).

Arguments Ok {A} a.
Arguments Raise {A} e.

Definition bind {A B : Type} (r : result A) (k : A -> result B) : result B :=
  match r with
  | Ok a => k a
  | Raise e => Raise e
  end.

Notation "x <- r ;; k" := (bind r (fun x => k))
  (at level 61, r at next level, right associativity).

(** ** PIL images *)

Definition Color : Type := Z * Z * Z.
Definition Pixel : Type := Z * Z * Z * Z.

Inductive Mode : Type := L | LA | RGB | RGBA.

(** Pixel data in row-major order, one entry per pixel; the constructor
    fixes the number of bands, so the mode is a function of the data.
    These are the four modes the embedding covers; Pillow has others
    (palette, CMYK, ...), about which nothing is stated here. *)
Inductive ImageData : Type :=
| DataL (px : list Z)
| DataLA (px : list (Z * Z))
| DataRGB (px : list Color)
| DataRGBA (px : list Pixel).

Record Image : Type := mkImage {
  im_width : N;
  im_height : N;
  im_data : ImageData
}.

Definition data_mode (d : ImageData) : Mode :=
  match d with
  | DataL _ => L
  | DataLA _ => LA
  | DataRGB _ => RGB
  | DataRGBA _ => RGBA
  end.

Definition mode (im : Image) : Mode := data_mode (im_data im).

(** [im.size] as Python sees it: a pair of integers. *)
Definition im_size (im : Image) : Z * Z :=
  (Z.of_N (im_width im), Z.of_N (im_height im)).

(** ** Orientation constants *)

Open Scope string_scope.

Definition AUTO : string := "auto".
Definition PORTRAIT : string := "portrait".
Definition LANDSCAPE : string := "landscape".

Close Scope string_scope.

(** [captures[i]] for a non-negative literal index. *)
Definition getitem {A : Type} (l : list A) (i : nat) : result A :=
  match nth_error l i with
  | Some a => Ok a
  | None => Raise IndexError
  end.

Definition len {A : Type} (l : list A) : Z := Z.of_nat (List.length l).

(** ** get_best_orientation *)

Definition get_best_orientation (captures : list Image) : result string :=
  c0 <- getitem captures 0 ;;
  let is_portrait := fst (im_size c0) <? snd (im_size c0) in
  if (len captures =? 1) || (len captures =? 4) then
    if is_portrait then Ok PORTRAIT else Ok LANDSCAPE
  else if (len captures =? 2) || (len captures =? 3) then
    if is_portrait then Ok LANDSCAPE else Ok PORTRAIT
  else Raise ValueError.

(** ** Composition backends *)

(** Modelled from the spec: the module [pibooth.pictures.maker] is not part
    of the sources; its two classes are constructed with the canvas width,
    the canvas height and the ordered captures, and the object is returned
    to the caller.  A maker is the record of its constructor arguments. *)
Inductive PictureMaker : Type :=
| PilPictureMaker (width height : Z) (images : list Image)
| OpenCvPictureMaker (width height : Z) (images : list Image).

Inductive BackendKind : Type := Portable | Accelerated.

Definition maker_kind (m : PictureMaker) : BackendKind :=
  match m with
  | PilPictureMaker _ _ _ => Portable
  | OpenCvPictureMaker _ _ _ => Accelerated
  end.

Definition maker_width (m : PictureMaker) : Z :=
  match m with
  | PilPictureMaker w _ _ | OpenCvPictureMaker w _ _ => w
  end.

Definition maker_height (m : PictureMaker) : Z :=
  match m with
  | PilPictureMaker _ h _ | OpenCvPictureMaker _ h _ => h
  end.

Definition maker_images (m : PictureMaker) : list Image :=
  match m with
  | PilPictureMaker _ _ l | OpenCvPictureMaker _ _ l => l
  end.

(** ** get_picture_maker *)

(** [maker_cv2] is the truth value of [maker.cv2]: the OpenCV module when
    its import succeeded, [None] otherwise. *)
Definition get_picture_maker (maker_cv2 : bool) (captures : list Image)
    (orientation : string) (paper_format : Z * Z) (force_pil : bool)
  : result PictureMaker :=
  if negb (String.eqb orientation AUTO || String.eqb orientation PORTRAIT
           || String.eqb orientation LANDSCAPE)
  then Raise AssertionError
  else
    orientation <- (if String.eqb orientation AUTO
                    then get_best_orientation captures
                    else Ok orientation) ;;
    let paper_format :=
      if fst paper_format >? snd paper_format
      then (snd paper_format, fst paper_format)
      else paper_format in
    let size := (fst paper_format * 600, snd paper_format * 600) in
    let size :=
      if String.eqb orientation LANDSCAPE then (snd size, fst size) else size in
    if negb maker_cv2 || force_pil
    then Ok (PilPictureMaker (fst size) (snd size) captures)
    else Ok (OpenCvPictureMaker (fst size) (snd size) captures).

(** The backend decision as the specification words it: the accelerated
    backend iff it is available and the fallback is not forced. *)
Definition backend_choice (capability_available force_fallback : bool) : BackendKind :=
  if capability_available && negb force_fallback then Accelerated else Portable.

Definition build_maker (k : BackendKind) (w h : Z) (l : list Image) : PictureMaker :=
  match k with
  | Portable => PilPictureMaker w h l
  | Accelerated => OpenCvPictureMaker w h l
  end.

(** ** Pillow primitives used by the recolouring *)

(** [Image.new('RGBA', size, color)]: Pillow rejects a negative dimension
    and accepts zero. *)
Definition Image_new_RGBA (size : Z * Z) (color : Pixel) : result Image :=
  if (fst size <? 0) || (snd size <? 0) then Raise ValueError
  else
    let w := Z.to_N (fst size) in
    let h := Z.to_N (snd size) in
    Ok (mkImage w h (DataRGBA (repeat color (N.to_nat (w * h))))).

Definition band (im : Image) (px : list Z) : Image :=
  mkImage (im_width im) (im_height im) (DataL px).

(** [im.split()]: one single-band image per band of the mode. *)
Definition Image_split (im : Image) : list Image :=
  match im_data im with
  | DataL px => [band im px]
  | DataLA px => [band im (map fst px); band im (map snd px)]
  | DataRGB px =>
      [band im (map (fun p => fst (fst p)) px);
       band im (map (fun p => snd (fst p)) px);
       band im (map snd px)]
  | DataRGBA px =>
      [band im (map (fun p => fst (fst (fst p))) px);
       band im (map (fun p => snd (fst (fst p))) px);
       band im (map (fun p => snd (fst p)) px);
       band im (map snd px)]
  end.

(** The tuple assignment [_, _, _, alpha = ...]: exactly four values are
    expected, anything else is a [ValueError]. *)
Definition unpack4 {A : Type} (l : list A) : result A :=
  match l with
  | [_; _; _; a] => Ok a
  | _ => Raise ValueError
  end.

(** ITU-R 601-2 luma as Pillow computes it on 8-bit channels. *)
Definition luma (r g b : Z) : Z :=
  Z.shiftr (r * 19595 + g * 38470 + b * 7471 + 32768) 16.

(** [im.convert('L')]: the alpha band, when there is one, is dropped. *)
Definition Image_convert_L (im : Image) : Image :=
  match im_data im with
  | DataL px => band im px
  | DataLA px => band im (map fst px)
  | DataRGB px => band im (map (fun '(r, g, b) => luma r g b) px)
  | DataRGBA px => band im (map (fun '(r, g, b, _) => luma r g b) px)
  end.

Definition clip8 (v : Z) : Z := Z.max 0 (Z.min 255 v).

(** The 256-entry table [ImageOps.colorize] builds for one channel with its
    default black point 0 and white point 255: a linear ramp from [black]
    over the first 255 entries, then [white]. *)
Definition colorize_ramp (black white : Z) : list Z :=
  map (fun i => black + Z.of_nat i * (white - black) / 255) (seq 0 255)
  ++ [white].

Definition lookup (table : list Z) (g : Z) : Z :=
  clip8 (nth (Z.to_nat g) table 0).

Definition colorize_pixel (black white : Color) (g : Z) : Color :=
  let '(br, bg, bb) := black in
  let '(wr, wg, wb) := white in
  (lookup (colorize_ramp br wr) g,
   lookup (colorize_ramp bg wg) g,
   lookup (colorize_ramp bb wb) g).

(** [ImageOps.colorize(image, black, white)]: asserts a mode-L input and
    returns the RGB image obtained through the three ramps. *)
Definition ImageOps_colorize (image : Image) (black white : Color) : result Image :=
  match im_data image with
  | DataL px =>
      Ok (mkImage (im_width image) (im_height image)
            (DataRGB (map (colorize_pixel black white) px)))
  | _ => Raise AssertionError
  end.

Definition with_alpha {A : Type} (px : list A) (alpha : list Z) : list (A * Z) :=
  combine px alpha.

(** [im.putalpha(alpha)] with a band image: the band must be of mode L
    and of the same size; an image without alpha band gets one (L becomes
    LA, RGB becomes RGBA), otherwise the alpha band is replaced. *)
Definition Image_putalpha (im alpha : Image) : result Image :=
  match im_data alpha with
  | DataL a =>
      if (im_width im =? im_width alpha)%N && (im_height im =? im_height alpha)%N
      then
        Ok (mkImage (im_width im) (im_height im)
              match im_data im with
              | DataL px => DataLA (with_alpha px a)
              | DataLA px => DataLA (with_alpha (map fst px) a)
              | DataRGB px => DataRGBA (with_alpha px a)
              | DataRGBA px => DataRGBA (with_alpha (map fst px) a)
              end)
      else Raise ValueError
  | _ => Raise ValueError
  end.

(** ** set_picto_color *)

Definition set_picto_color (picto_pil_image : Image) (color : Color)
    (bg_color : option Color) : result Image :=
  let bg_color :=
    match bg_color with
    | Some c => c
    | None =>
        let '(r, g, b) := color in
        (Z.abs (r - 255), Z.abs (g - 255), Z.abs (b - 255))
    end in
  alpha <- unpack4 (Image_split picto_pil_image) ;;
  let gray_pil_image := Image_convert_L picto_pil_image in
  colorize_pil_image <- ImageOps_colorize gray_pil_image bg_color color ;;
  Image_putalpha colorize_pil_image alpha.

(** The alpha band of an image, when its mode has one. *)
Definition alpha_band (im : Image) : option (list Z) :=
  match im_data im with
  | DataLA px => Some (map snd px)
  | DataRGBA px => Some (map snd px)
  | _ => None
  end.

(** ** Pixel grids *)

(** The coordinates [(x, y)] of a [w] by [h] grid in row-major order. *)
Definition coords (w h : N) : list (Z * Z) :=
  flat_map
    (fun j => map (fun i => (Z.of_nat i, Z.of_nat j)) (seq 0 (N.to_nat w)))
    (seq 0 (N.to_nat h)).

(** The pixel at [(x, y)] of a row-major grid; [zero] outside of it. *)
Definition pixel_at {A : Type} (zero : A) (w h : N) (px : list A) (xy : Z * Z) : A :=
  let '(x, y) := xy in
  if (0 <=? x) && (x <? Z.of_N w) && (0 <=? y) && (y <? Z.of_N h)
  then nth (Z.to_nat (y * Z.of_N w + x)) px zero
  else zero.

(** A [w'] by [h'] grid whose pixel at [xy] is the source pixel at [f xy]. *)
Definition remap {A : Type} (zero : A) (w h : N) (px : list A)
    (w' h' : N) (f : Z * Z -> Z * Z) : list A :=
  map (fun xy => pixel_at zero w h px (f xy)) (coords w' h').

Definition data_remap (im : Image) (w' h' : N) (f : Z * Z -> Z * Z) : ImageData :=
  let w := im_width im in
  let h := im_height im in
  match im_data im with
  | DataL px => DataL (remap 0 w h px w' h' f)
  | DataLA px => DataLA (remap (0, 0) w h px w' h' f)
  | DataRGB px => DataRGB (remap (0, 0, 0) w h px w' h' f)
  | DataRGBA px => DataRGBA (remap (0, 0, 0, 0) w h px w' h' f)
  end.

(** ** pibooth.pictures.sizing *)

(** Python's [a // b] on integers. *)
Definition floordiv (a b : Z) : result Z :=
  if b =? 0 then Raise ZeroDivisionError else Ok (a / b).

(** Comparison of the aspect ratios [a / b] and [c / d], for non-zero [b]
    and [d]. *)
Definition ratio_gtb (a b c d : Z) : bool := (a * d - c * b) * (b * d) >? 0.

(** Modelled from the spec: [sizing.new_size_keep_aspect_ratio] is not part
    of the sources.  The image is resized preserving its aspect ratio to
    fit within the target box: the binding dimension equals the target's,
    the other one is scaled by the same ratio (rounded down) and does not
    exceed the target.  The aspect ratio width / height of the original
    and of the target are compared; for a height of zero there is no
    ratio and the helper fails with ZeroDivisionError. *)
Definition new_size_keep_aspect_ratio (original_size target_size : Z * Z)
  : result (Z * Z) :=
  let '(ox, oy) := original_size in
  let '(tx, ty) := target_size in
  if (oy =? 0) || (ty =? 0) then Raise ZeroDivisionError
  else if ratio_gtb tx ty ox oy then
    x <- floordiv (ox * ty) oy ;; Ok (x, ty)
  else if ratio_gtb ox oy tx ty then
    y <- floordiv (oy * tx) ox ;; Ok (tx, y)
  else Ok (tx, ty).

(** Modelled from the spec: [sizing.new_size_by_croping_ratio] is not part
    of the sources.  It returns the box [(x1, y1, x2, y2)] of the largest
    centered rectangle of the original that has the aspect ratio of the
    target; as above it fails with ZeroDivisionError when a height is
    zero. *)
Definition new_size_by_croping_ratio (original_size target_size : Z * Z)
  : result (Z * Z * Z * Z) :=
  let '(ox, oy) := original_size in
  let '(tx, ty) := target_size in
  if (oy =? 0) || (ty =? 0) then Raise ZeroDivisionError
  else
    wh <-
      (if ratio_gtb tx ty ox oy then
         h <- floordiv (ox * ty) tx ;; Ok (ox, h)
       else if ratio_gtb ox oy tx ty then
         w <- floordiv (oy * tx) ty ;; Ok (w, oy)
       else Ok (ox, oy)) ;;
    let '(w, h) := wh in
    let x := (ox - w) / 2 in
    let y := (oy - h) / 2 in
    Ok (x, y, x + w, y + h).

(** ** Pillow geometry *)

Inductive Filter : Type := NEAREST | ANTIALIAS.

(** [im.crop(box)]: the region may exceed the image, the pixels outside
    are zero; an inverted box gives an empty image. *)
Definition Image_crop (im : Image) (box : Z * Z * Z * Z) : Image :=
  let '(x1, y1, x2, y2) := box in
  let w' := Z.to_N (x2 - x1) in
  let h' := Z.to_N (y2 - y1) in
  mkImage w' h' (data_remap im w' h' (fun '(x, y) => (x + x1, y + y1))).

(** ** pygame surfaces *)

Record Surface : Type := mkSurface {
  surf_width : N;
  surf_height : N;
  surf_alpha : bool;          (* per-pixel alpha *)
  surf_pixels : list Pixel    (* row-major RGBA *)
}.

Definition get_size (s : Surface) : Z * Z :=
  (Z.of_N (surf_width s), Z.of_N (surf_height s)).

Definition opaque (c : Color) : Pixel := (c, 255).
Definition gray (v : Z) : Color := (v, v, v).

(** ** What the embedding leaves to the libraries *)

(** The pixel arithmetic of three library operations is not reproduced:
    the resampling kernels of [Image.resize], the conversion of a surface
    to the pixel format of the display, and the rotation of a surface by
    an arbitrary angle.  The definitions below are parametric in them. *)
Class Primitives : Type := {
  resample : Filter -> Image -> N -> N -> ImageData;
  display_convert : Surface -> Surface;
  transform_rotate : Surface -> Z -> Surface
}.

Section Loader.

Context {P : Primitives}.

(** [im.resize(size, resample)]: a copy when the size is unchanged;
    otherwise both dimensions must be positive. *)
Definition Image_resize (im : Image) (size : Z * Z) (filter : Filter) : result Image :=
  if (fst size =? fst (im_size im)) && (snd size =? snd (im_size im)) then Ok im
  else if (fst size <=? 0) || (snd size <=? 0) then Raise ValueError
  else
    let w := Z.to_N (fst size) in
    let h := Z.to_N (snd size) in
    Ok (mkImage w h (resample filter im w h)).

(** [pygame.image.fromstring(im.tobytes(), im.size, im.mode)]: the
    resolution must be positive, the format one pygame knows (of the four
    modes here, RGB and RGBA), and the buffer as long as the resolution
    requires. *)
Definition image_fromstring (data : ImageData) (size : Z * Z) : result Surface :=
  let '(w, h) := size in
  if (w <? 1) || (h <? 1) then Raise ValueError
  else
    match data with
    | DataRGB px =>
        if len px =? w * h
        then Ok (mkSurface (Z.to_N w) (Z.to_N h) false (map opaque px))
        else Raise ValueError
    | DataRGBA px =>
        if len px =? w * h
        then Ok (mkSurface (Z.to_N w) (Z.to_N h) true px)
        else Raise ValueError
    | _ => Raise ValueError
    end.

(** [pygame.transform.flip(surface, xbool, ybool)]. *)
Definition transform_flip (s : Surface) (xbool ybool : bool) : Surface :=
  let w := surf_width s in
  let h := surf_height s in
  mkSurface w h (surf_alpha s)
    (remap (0, 0, 0, 0) w h (surf_pixels s) w h
       (fun '(x, y) =>
          (if xbool then Z.of_N w - 1 - x else x,
           if ybool then Z.of_N h - 1 - y else y))).

(** ** The asset directory *)

Inductive FileContent : Type :=
| Picture (im : Image)     (* a file that decodes to this image *)
| Garbage.                 (* a file that is not an image *)

Record World : Type := mkWorld {
  package_dir : string;                    (* dirname(abspath(__file__)) *)
  files : string -> option FileContent     (* the regular files, by path *)
}.

Definition starts_with_slash (s : string) : bool :=
  match s with
  | String c _ => Ascii.eqb c "/"%char
  | EmptyString => false
  end.

Fixpoint ends_with_slash (s : string) : bool :=
  match s with
  | EmptyString => false
  | String c EmptyString => Ascii.eqb c "/"%char
  | String _ rest => ends_with_slash rest
  end.

(** One step of [posixpath.join]. *)
Definition osp_join (a b : string) : string :=
  if starts_with_slash b then b
  else if String.eqb a "" || ends_with_slash a then (a ++ b)%string
  else (a ++ "/" ++ b)%string.

Definition get_filename (W : World) (name : string) : string :=
  osp_join (osp_join (package_dir W) "assets") name.

Definition osp_isfile (W : World) (path : string) : bool :=
  match files W path with Some _ => true | None => false end.

(** [Image.open(path)]. *)
Definition Image_open (W : World) (path : string) : result Image :=
  match files W path with
  | Some (Picture im) => Ok im
  | _ => Raise IOError
  end.

(** The pixels of a decoded image as a pygame surface. *)
Definition decoded_surface (im : Image) : Surface :=
  let mk := mkSurface (im_width im) (im_height im) in
  match im_data im with
  | DataL px => mk false (map (fun v => opaque (gray v)) px)
  | DataLA px => mk true (map (fun '(v, a) => (gray v, a)) px)
  | DataRGB px => mk false (map opaque px)
  | DataRGBA px => mk true px
  end.

(** [pygame.image.load(path)]: FileNotFoundError for a path that is not
    there, the pygame error for a file that is not an image. *)
Definition image_load (W : World) (path : string) : result Surface :=
  match files W path with
  | Some (Picture im) => Ok (decoded_surface im)
  | Some Garbage => Raise PygameError
  | None => Raise IOError
  end.

Definition Color_eqb (c d : Color) : bool :=
  let '(r, g, b) := c in
  let '(r', g', b') := d in
  (r =? r') && (g =? g') && (b =? b').

(** ** get_pygame_image *)

Definition get_pygame_image (W : World) (name : string) (size : option (Z * Z))
    (antialiasing hflip vflip crop : bool) (angle : Z)
    (color : Color) (bg_color : option Color) : result Surface :=
  let path := get_filename W name in
  image <-
    match size with
    | None =>
        s <- image_load W path ;;
        Ok (display_convert s)
    | Some size =>
        pil_image <-
          (if osp_isfile W path then Image_open W path
           else Image_new_RGBA size (0, 0, 0, 0)) ;;
        pil_image <-
          (if negb (Color_eqb color (255, 255, 255))
           then set_picto_color pil_image color bg_color
           else Ok pil_image) ;;
        pil_image <-
          (if crop
           then box <- new_size_by_croping_ratio (im_size pil_image) size ;;
                Ok (Image_crop pil_image box)
           else Ok pil_image) ;;
        new_size <- new_size_keep_aspect_ratio (im_size pil_image) size ;;
        pil_image <-
          Image_resize pil_image new_size
            (if antialiasing then ANTIALIAS else NEAREST) ;;
        image_fromstring (im_data pil_image) (im_size pil_image)
    end ;;
  let image :=
    if hflip || vflip then transform_flip image hflip vflip else image in
  let image :=
    if negb (angle =? 0) then transform_rotate image angle else image in
  Ok image.

(** A surface is fully transparent when every pixel has alpha 0. *)
Definition fully_transparent (s : Surface) : Prop :=
  surf_alpha s = true /\ Forall (fun p : Pixel => snd p = 0) (surf_pixels s).

End Loader.

(** ** get_main_color *)

(** What [getpixel] returns: an integer for mode L, a tuple otherwise. *)
Inductive PixelValue : Type :=
| ValueL (v : Z)
| ValueLA (p : Z * Z)
| ValueRGB (c : Color)
| ValueRGBA (p : Pixel).

Definition nth_pixel (d : ImageData) (i : nat) : option PixelValue :=
  match d with
  | DataL px => option_map ValueL (nth_error px i)
  | DataLA px => option_map ValueLA (nth_error px i)
  | DataRGB px => option_map ValueRGB (nth_error px i)
  | DataRGBA px => option_map ValueRGBA (nth_error px i)
  end.

(** [im.getpixel(xy)]: an IndexError outside of the image. *)
Definition Image_getpixel (im : Image) (xy : Z * Z) : result PixelValue :=
  let '(x, y) := xy in
  if (0 <=? x) && (x <? Z.of_N (im_width im))
     && (0 <=? y) && (y <? Z.of_N (im_height im))
  then
    match nth_pixel (im_data im) (Z.to_nat (y * Z.of_N (im_width im) + x)) with
    | Some v => Ok v
    | None => Raise IndexError
    end
  else Raise IndexError.

Section MainColor.

Context {P : Primitives}.

(** The filter [Image.resize] uses when none is given; it depends on the
    Pillow release. *)
Variable default_filter : Filter.

(** The path is opened as it is given, not looked up among the assets. *)
Definition get_main_color (W : World) (image_path : string) : result PixelValue :=
  pil_image <- Image_open W image_path ;;
  monopixel_image <- Image_resize pil_image (1, 1) default_filter ;;
  Image_getpixel monopixel_image (0, 0).

End MainColor.

(** ** Rectangles and float arithmetic *)

(** A [pygame.Rect]: four integers. *)
Record Rect : Type := mkRect {
  rect_x : Z;
  rect_y : Z;
  rect_width : Z;
  rect_height : Z
}.

(** [surface.get_rect()]. *)
Definition Surface_get_rect (s : Surface) : Rect :=
  mkRect 0 0 (Z.of_N (surf_width s)) (Z.of_N (surf_height s)).

(** [rect.center]; pygame halves with C's integer division. *)
Definition rect_center (r : Rect) : Z * Z :=
  (rect_x r + Z.quot (rect_width r) 2, rect_y r + Z.quot (rect_height r) 2).

(** [surface.get_rect(center=c)]: the rectangle of the surface moved so
    that its centre is [c]. *)
Definition Surface_get_rect_center (s : Surface) (c : Z * Z) : Rect :=
  let r := Surface_get_rect s in
  mkRect (fst c - Z.quot (rect_width r) 2) (snd c - Z.quot (rect_height r) 2)
         (rect_width r) (rect_height r).

(** The binary64 number nearest to an integer; Python refuses integers
    beyond the range of floats. *)
Definition float_of_int (z : Z) : result float :=
  let f := SF2Prim (binary_normalize prec emax z 0 false) in
  if is_infinity f then Raise OverflowError else Ok f.

(** Truncation toward zero, the conversion [pygame.Rect] applies to a
    float argument: the float is [m * 2 ^ e] up to its sign, and the bits
    of [m] below the unit are dropped. *)
Definition int_of_float (f : float) : result Z :=
  match Prim2SF f with
  | S754_zero _ => Ok 0
  | S754_finite sign m e =>
      let v :=
        if 0 <=? e then Z.shiftl (Z.pos m) e else Z.shiftr (Z.pos m) (- e) in
      Ok (if sign then - v else v)
  | _ => Raise OverflowError
  end.

(** Python's [int * float], [float / int] and [int + float]. *)
Definition int_mul_float (z : Z) (c : float) : result float :=
  f <- float_of_int z ;; Ok (PrimFloat.mul f c).

Definition float_div_int (f : float) (z : Z) : result float :=
  if z =? 0 then Raise ZeroDivisionError
  else d <- float_of_int z ;; Ok (PrimFloat.div f d).

Definition int_add_float (z : Z) (c : float) : result float :=
  f <- float_of_int z ;; Ok (PrimFloat.add f c).

(** [pygame.Rect(x, y, w, h)] with float arguments. *)
Definition Rect_of_floats (x y w h : float) : result Rect :=
  x <- int_of_float x ;;
  y <- int_of_float y ;;
  w <- int_of_float w ;;
  h <- int_of_float h ;;
  Ok (mkRect x y w h).

(** The rectangle of the caption, lines 153-155:
    [Rect(rect.x + rect.width * 0.3 / 2, rect.y + rect.height * 0.76,
          rect.width * 0.7, rect.height * 0.20)]. *)
Definition caption_rect (rect : Rect) : result Rect :=
  x <- (a <- int_mul_float (rect_width rect) 0x1.3333333333333p-2 ;;
        b <- float_div_int a 2 ;;
        int_add_float (rect_x rect) b) ;;
  y <- (a <- int_mul_float (rect_height rect) 0x1.851eb851eb852p-1 ;;
        int_add_float (rect_y rect) a) ;;
  w <- int_mul_float (rect_width rect) 0x1.6666666666666p-1 ;;
  h <- int_mul_float (rect_height rect) 0x1.999999999999ap-3 ;;
  Rect_of_floats x y w h.

(** ** get_layout_image *)

(** [str(n)] for an integer. *)
Definition str (n : Z) : string := NilZero.string_of_int (Z.to_int n).

(** What get_layout_image takes from the modules [language] and [fonts]
    and from pygame's fonts and surfaces.

    Modelled from the spec: [language.get_translated_text] and
    [fonts.get_pygame_font] are not part of the sources.  The first maps a
    key to a caption or to nothing; the second returns, for a text, a font
    family and a box, a font in which the text fits the box. *)
Class Captions : Type := {
  get_translated_text : string -> option string;
  FontFamily : Type;
  Font : Type;
  CURRENT : FontFamily;
  get_pygame_font : string -> FontFamily -> Z -> Z -> Font;
  (* font.render(text, antialias, color) *)
  font_render : Font -> string -> bool -> Color -> Surface;
  (* dest.blit(source, rect): dest with source drawn at the rect's corner *)
  surface_blit : Surface -> Surface -> Rect -> Surface
}.

(** Python's truth value of the looked-up text: [None] and the empty
    string count as no caption. *)
Definition caption_of (text : option string) : option string :=
  match text with
  | Some EmptyString => None
  | other => other
  end.

Section Layout.

Context {P : Primitives} {C : Captions}.

Definition get_layout_image (W : World) (text_color bg_color : Color)
    (layout_number : Z) (size : option (Z * Z)) : result Surface :=
  layout_image <-
    get_pygame_image W ("layout" ++ str layout_number ++ ".png") size
      true false false false 0 text_color (Some bg_color) ;;
  match caption_of (get_translated_text (str layout_number)) with
  | Some text =>
      let rect := Surface_get_rect layout_image in
      rect <- caption_rect rect ;;
      let text_font :=
        get_pygame_font text CURRENT (rect_width rect) (rect_height rect) in
      let surface := font_render text_font text true bg_color in
      Ok (surface_blit layout_image surface
            (Surface_get_rect_center surface (rect_center rect)))
  | None => Ok layout_image
  end.

End Layout.

(** ** Derived notions *)

(** [p] holds of every integer from 0 up to [n], [n] excluded. *)
Definition all_below (n : N) (p : Z -> bool) : bool :=
  snd (N.iter n
         (fun st : Z * bool => (fst st + 1, snd st && p (fst st))) (0, true)).

(** [float_of_int] by the machine's conversion of a 63-bit integer. *)
Definition float_of_uint63 (z : Z) : result float :=
  let f := PrimFloat.of_uint63 (Uint63.of_Z z) in
  if is_infinity f then Raise OverflowError else Ok f.

(** [caption_rect] with every integer converted by [float_of_uint63]. *)
Definition caption_rect_uint63 (rect : Rect) : result Rect :=
  x <- (a <- (f <- float_of_uint63 (rect_width rect) ;;
              Ok (PrimFloat.mul f 0x1.3333333333333p-2)) ;;
        b <- (d <- float_of_uint63 2 ;; Ok (PrimFloat.div a d)) ;;
        f <- float_of_uint63 (rect_x rect) ;; Ok (PrimFloat.add f b)) ;;
  y <- (a <- (f <- float_of_uint63 (rect_height rect) ;;
              Ok (PrimFloat.mul f 0x1.851eb851eb852p-1)) ;;
        f <- float_of_uint63 (rect_y rect) ;; Ok (PrimFloat.add f a)) ;;
  w <- (f <- float_of_uint63 (rect_width rect) ;;
        Ok (PrimFloat.mul f 0x1.6666666666666p-1)) ;;
  h <- (f <- float_of_uint63 (rect_height rect) ;;
        Ok (PrimFloat.mul f 0x1.999999999999ap-3)) ;;
  Rect_of_floats x y w h.

(** [q] is the whole part of [p] percent of [v]. *)
Definition percent_floor (p v q : Z) : bool :=
  (100 * q <=? p * v) && (p * v <? 100 * q + 100).

(** For a square template of side [v]: the caption rectangle starts at the
    whole part of 15% and 76% of [v], is the whole part of 20% of [v]
    high, and is the whole part of 70% of [v] wide or, where 70% of [v] is
    a whole number, possibly one pixel less. *)
Definition caption_rect_checked (v : Z) : bool :=
  match caption_rect_uint63 (mkRect 0 0 v v) with
  | Ok r =>
      percent_floor 15 v (rect_x r) && percent_floor 76 v (rect_y r)
      && percent_floor 20 v (rect_height r)
      && (percent_floor 70 v (rect_width r)
          || (70 * v =? 100 * (rect_width r + 1)))
  | Raise _ => false
  end.

(** A fully transparent RGBA image of size [w] by [h]. *)
Definition transparent_image (im : Image) (w h : Z) : Prop :=
  im_size im = (w, h) /\
  exists px,
    im_data im = DataRGBA px /\
    len px = w * h /\
    Forall (fun p : Pixel => snd p = 0) px.

(** Flips, then rotation: the last two steps of get_pygame_image. *)
Definition flip_then_rotate {P : Primitives} (hflip vflip : bool) (angle : Z)
    (image : Surface) : Surface :=
  let image :=
    if hflip || vflip then transform_flip image hflip vflip else image in
  if negb (angle =? 0) then transform_rotate image angle else image.

(** ** Sample data, for evaluation *)

(** A 2 by 3 opaque capture and a 3 by 3 one. *)
Definition tall_capture : Image :=
  mkImage 2 3 (DataRGB (repeat (10, 20, 30) 6)).

Definition square_capture : Image :=
  mkImage 3 3 (DataRGB (repeat (10, 20, 30) 9)).

(** Nearest-neighbour sampling at pixel centres. *)
Definition nearest (im : Image) (w h : N) : ImageData :=
  data_remap im w h
    (fun '(x, y) =>
       ((2 * x + 1) * Z.of_N (im_width im) / (2 * Z.of_N w),
        (2 * y + 1) * Z.of_N (im_height im) / (2 * Z.of_N h))).

(** A quarter turn counter-clockwise. *)
Definition quarter_turn (s : Surface) : Surface :=
  let w := surf_width s in
  let h := surf_height s in
  mkSurface h w (surf_alpha s)
    (remap (0, 0, 0, 0) w h (surf_pixels s) h w
       (fun '(x, y) => (Z.of_N w - 1 - y, x))).

(** One implementation of the three library operations: nearest-neighbour
    sampling for both filters, a display in RGBA format, rotation by whole
    quarter turns. *)
Definition sample_primitives : Primitives := {|
  resample := fun _ => nearest;
  display_convert := fun s => s;
  transform_rotate :=
    fun s angle => Nat.iter (Z.to_nat ((angle / 90) mod 4)) quarter_turn s
|}.

(** A red opaque pixel next to a blue half-transparent one. *)
Definition arrow : Image :=
  mkImage 2 1 (DataRGBA [(255, 0, 0, 255); (0, 0, 255, 128)]).

(** A package directory whose assets are [arrow.png], an image, and
    [notes.png], which is not one. *)
Definition sample_world : World := {|
  package_dir := "/opt/pibooth/pictures";
  files := fun path =>
    if String.eqb path "/opt/pibooth/pictures/assets/arrow.png"
    then Some (Picture arrow)
    else if String.eqb path "/opt/pibooth/pictures/assets/notes.png"
    then Some Garbage
    else None
|}.

(** A surface of one colour. *)
Definition solid (w h : Z) (c : Color) : Surface :=
  mkSurface (Z.to_N w) (Z.to_N h) false
    (repeat (opaque c) (Z.to_nat (Z.max 0 w * Z.max 0 h))).

(** The source drawn over the destination at the corner of the rectangle,
    without blending. *)
Definition paste (dest source : Surface) (rect : Rect) : Surface :=
  mkSurface (surf_width dest) (surf_height dest) (surf_alpha dest)
    (map (fun xy : Z * Z =>
            let sx := fst xy - rect_x rect in
            let sy := snd xy - rect_y rect in
            if (0 <=? sx) && (sx <? Z.of_N (surf_width source))
               && (0 <=? sy) && (sy <? Z.of_N (surf_height source))
            then pixel_at (0, 0, 0, 0) (surf_width source) (surf_height source)
                   (surf_pixels source) (sx, sy)
            else pixel_at (0, 0, 0, 0) (surf_width dest) (surf_height dest)
                   (surf_pixels dest) xy)
       (coords (surf_width dest) (surf_height dest))).

(** One implementation of the caption operations: a caption for one
    capture only, a font that is the box it was asked for, a rendering
    that fills that box with the colour. *)
Definition sample_captions : Captions := {|
  get_translated_text :=
    fun key => if String.eqb key "1" then Some "Smile"%string else None;
  FontFamily := string;
  Font := Z * Z;
  CURRENT := "Amatic"%string;
  get_pygame_font := fun _ _ w h => (w, h);
  font_render := fun font _ _ color => solid (fst font) (snd font) color;
  surface_blit := paste
|}.

(** The placeholder for a missing template of 20 by 10 pixels. *)
Definition blank_template : Surface :=
  mkSurface 20 10 true (repeat (0, 0, 0, 0) 200).

(** A second package directory: [photo.png] is an RGB image without alpha
    band, [mask.png] a gray-scale one. *)
Definition gallery_world : World := {|
  package_dir := "/srv/booth/pictures";
  files := fun path =>
    if String.eqb path "/srv/booth/pictures/assets/photo.png"
    then Some (Picture tall_capture)
    else if String.eqb path "/srv/booth/pictures/assets/mask.png"
    then Some (Picture (mkImage 1 2 (DataL [0; 255])))
    else None
|}.

(** * Properties *)

(** ** The error monad *)

Lemma bind_Ok {A B : Type} (a : A) (k : A -> result B) : bind (Ok a) k = k a.
Proof. reflexivity. Qed.

Lemma bind_Raise {A B : Type} (e : exception) (k : A -> result B) :
  bind (Raise e) k = Raise e.
Proof. reflexivity. Qed.

(** ** Orientation *)

Lemma orientations_distinct : PORTRAIT <> LANDSCAPE.
Proof. discriminate. Qed.

Lemma get_best_orientation_1_4 (c0 : Image) (rest : list Image) :
  len (c0 :: rest) = 1 \/ len (c0 :: rest) = 4 ->
  get_best_orientation (c0 :: rest) =
    Ok (if fst (im_size c0) <? snd (im_size c0) then PORTRAIT else LANDSCAPE).
Proof.
  intros Hlen. unfold get_best_orientation, getitem.
  cbn [nth_error bind].
  replace ((len (c0 :: rest) =? 1) || (len (c0 :: rest) =? 4)) with true.
  - now destruct (_ <? _).
  - symmetry. apply orb_true_iff. rewrite !Z.eqb_eq. exact Hlen.
Qed.

Lemma get_best_orientation_2_3 (c0 : Image) (rest : list Image) :
  len (c0 :: rest) = 2 \/ len (c0 :: rest) = 3 ->
  get_best_orientation (c0 :: rest) =
    Ok (if fst (im_size c0) <? snd (im_size c0) then LANDSCAPE else PORTRAIT).
Proof.
  intros Hlen. unfold get_best_orientation, getitem.
  cbn [nth_error bind].
  replace ((len (c0 :: rest) =? 1) || (len (c0 :: rest) =? 4)) with false.
  - replace ((len (c0 :: rest) =? 2) || (len (c0 :: rest) =? 3)) with true.
    + now destruct (_ <? _).
    + symmetry. apply orb_true_iff. rewrite !Z.eqb_eq. exact Hlen.
  - symmetry. apply orb_false_iff. rewrite !Z.eqb_neq. lia.
Qed.

(** C1.  For a capture list of length 1 or 4 the resolver returns PORTRAIT
    exactly when the first capture is narrower than high and LANDSCAPE
    exactly when it is not; for a list of length 2 or 3 the two answers
    are exchanged. *)
Theorem get_best_orientation_table (c0 : Image) (rest : list Image) :
  let captures := c0 :: rest in
  let w := fst (im_size c0) in
  let h := snd (im_size c0) in
  (len captures = 1 \/ len captures = 4 ->
     (get_best_orientation captures = Ok PORTRAIT <-> w < h) /\
     (get_best_orientation captures = Ok LANDSCAPE <-> ~ w < h)) /\
  (len captures = 2 \/ len captures = 3 ->
     (get_best_orientation captures = Ok LANDSCAPE <-> w < h) /\
     (get_best_orientation captures = Ok PORTRAIT <-> ~ w < h)).
Proof.
  intros captures w h. subst captures w h. split; intros Hlen.
  - rewrite (get_best_orientation_1_4 _ _ Hlen).
    destruct (Z.ltb_spec (fst (im_size c0)) (snd (im_size c0))) as [Hlt|Hge];
      repeat split; intros H; try reflexivity; try lia; try discriminate H.
  - rewrite (get_best_orientation_2_3 _ _ Hlen).
    destruct (Z.ltb_spec (fst (im_size c0)) (snd (im_size c0))) as [Hlt|Hge];
      repeat split; intros H; try reflexivity; try lia; try discriminate H.
Qed.

Lemma get_best_orientation_table_witness :
  get_best_orientation [tall_capture] = Ok PORTRAIT /\
  get_best_orientation [tall_capture; square_capture] = Ok LANDSCAPE.
Proof.
  split.
  - apply (proj1 (get_best_orientation_table tall_capture [])).
    + left; reflexivity.
    + reflexivity.
  - apply (proj2 (get_best_orientation_table tall_capture [square_capture])).
    + left; reflexivity.
    + reflexivity.
Defined.

(** ** Canvas and backend *)

(** C2.  Four captures of which the first is square, on 4x6 paper: the
    resolver answers LANDSCAPE and the maker is built for a 3600 by 2400
    canvas with the four captures in their order, whichever backend is
    selected. *)
Theorem four_square_captures_scenario (maker_cv2 force_pil : bool)
    (c1 c2 c3 c4 : Image) :
  fst (im_size c1) = snd (im_size c1) ->
  let captures := [c1; c2; c3; c4] in
  get_best_orientation captures = Ok LANDSCAPE /\
  get_picture_maker maker_cv2 captures AUTO (4, 6) force_pil =
    Ok (build_maker (backend_choice maker_cv2 force_pil) 3600 2400 captures).
Proof.
  intros Hsq captures. subst captures.
  assert (Ho : get_best_orientation [c1; c2; c3; c4] = Ok LANDSCAPE).
  { rewrite get_best_orientation_1_4 by (right; reflexivity).
    rewrite Hsq, Z.ltb_irrefl. reflexivity. }
  split; [exact Ho|].
  unfold get_picture_maker.
  change (String.eqb AUTO AUTO) with true. cbn [orb negb].
  rewrite Ho.
  destruct maker_cv2, force_pil; reflexivity.
Qed.

Lemma four_square_captures_scenario_witness :
  get_best_orientation
    [square_capture; tall_capture; tall_capture; square_capture] = Ok LANDSCAPE /\
  get_picture_maker true
    [square_capture; tall_capture; tall_capture; square_capture]
    AUTO (4, 6) false =
  Ok (OpenCvPictureMaker 3600 2400
        [square_capture; tall_capture; tall_capture; square_capture]).
Proof.
  apply (four_square_captures_scenario true false
           square_capture tall_capture tall_capture square_capture).
  reflexivity.
Defined.

(** C3.  On the empty capture list the resolver fails while reading the
    first capture, before the count is examined: the exception is the
    IndexError of the subscript, not the ValueError of the count check,
    and get_picture_maker hands it on unchanged. *)
Theorem get_best_orientation_empty (maker_cv2 force_pil : bool) (paper_format : Z * Z) :
  get_best_orientation [] = Raise IndexError /\
  get_picture_maker maker_cv2 [] AUTO paper_format force_pil = Raise IndexError.
Proof. split; reflexivity. Qed.

(** More than four captures are rejected by the count check. *)
Lemma get_best_orientation_too_many (captures : list Image) :
  4 < len captures -> get_best_orientation captures = Raise ValueError.
Proof.
  intros Hlen. destruct captures as [|c0 rest]; [cbv in Hlen; discriminate|].
  unfold get_best_orientation, getitem.
  cbn [nth_error bind].
  replace ((len (c0 :: rest) =? 1) || (len (c0 :: rest) =? 4)) with false
    by (symmetry; apply orb_false_iff; rewrite !Z.eqb_neq; lia).
  replace ((len (c0 :: rest) =? 2) || (len (c0 :: rest) =? 3)) with false
    by (symmetry; apply orb_false_iff; rewrite !Z.eqb_neq; lia).
  reflexivity.
Qed.

(** An exception of the resolver leaves get_picture_maker unchanged. *)
Lemma get_picture_maker_propagates (maker_cv2 force_pil : bool)
    (captures : list Image) (paper_format : Z * Z) (e : exception) :
  get_best_orientation captures = Raise e ->
  get_picture_maker maker_cv2 captures AUTO paper_format force_pil = Raise e.
Proof.
  intros He. unfold get_picture_maker.
  change (String.eqb AUTO AUTO) with true. cbn [orb negb].
  now rewrite He.
Qed.

Lemma get_picture_maker_rebuild (maker_cv2 force_pil : bool)
    (captures : list Image) (orientation : string) (paper_format : Z * Z) :
  get_picture_maker maker_cv2 captures orientation paper_format force_pil =
    (m <- get_picture_maker false captures orientation paper_format true ;;
     Ok (build_maker (backend_choice maker_cv2 force_pil)
           (maker_width m) (maker_height m) (maker_images m))).
Proof.
  unfold get_picture_maker.
  destruct (negb _); [reflexivity|].
  destruct (if String.eqb orientation AUTO then _ else _) as [o|e];
    [|reflexivity].
  rewrite !bind_Ok. destruct maker_cv2, force_pil; reflexivity.
Qed.

Lemma get_best_orientation_succeeds (captures : list Image) :
  1 <= len captures <= 4 ->
  get_best_orientation captures = Ok PORTRAIT \/
  get_best_orientation captures = Ok LANDSCAPE.
Proof.
  intros Hlen.
  destruct captures as [|c0 rest]; [unfold len in Hlen; simpl in Hlen; lia|].
  assert (Hc : (len (c0 :: rest) = 1 \/ len (c0 :: rest) = 4) \/
               (len (c0 :: rest) = 2 \/ len (c0 :: rest) = 3)) by lia.
  destruct Hc as [Hc|Hc].
  - rewrite (get_best_orientation_1_4 _ _ Hc). destruct (_ <? _); auto.
  - rewrite (get_best_orientation_2_3 _ _ Hc). destruct (_ <? _); auto.
Qed.

(** With one to four captures and one of the three orientations a maker
    is returned. *)
Lemma get_picture_maker_succeeds (maker_cv2 force_pil : bool)
    (captures : list Image) (orientation : string) (paper_format : Z * Z) :
  1 <= len captures <= 4 ->
  orientation = AUTO \/ orientation = PORTRAIT \/ orientation = LANDSCAPE ->
  exists m,
    get_picture_maker maker_cv2 captures orientation paper_format force_pil
      = Ok m.
Proof.
  intros Hlen Ho. unfold get_picture_maker.
  destruct Ho as [-> | [-> | ->]].
  - change (String.eqb AUTO AUTO) with true. cbn [orb negb].
    destruct (get_best_orientation_succeeds captures Hlen) as [-> | ->];
      rewrite bind_Ok; destruct (negb maker_cv2 || force_pil); eauto.
  - change (String.eqb PORTRAIT AUTO) with false.
    change (String.eqb PORTRAIT PORTRAIT) with true. cbn [orb negb bind].
    destruct (negb maker_cv2 || force_pil); eauto.
  - change (String.eqb LANDSCAPE AUTO) with false.
    change (String.eqb LANDSCAPE PORTRAIT) with false.
    change (String.eqb LANDSCAPE LANDSCAPE) with true. cbn [orb negb bind].
    destruct (negb maker_cv2 || force_pil); eauto.
Qed.

(** C4.  The backend is decided by the two flags alone.  Every call
    equals the call with the portable backend forced, rebuilt with the
    backend the flags name, so the flags change nothing but the backend.
    With one to four captures and one of the three orientations a maker is
    returned; it is the accelerated one exactly when OpenCV is available
    and PIL is not forced, and the portable one in every other case. *)
Theorem backend_choice_pure (maker_cv2 force_pil : bool) (captures : list Image)
    (orientation : string) (paper_format : Z * Z) :
  get_picture_maker maker_cv2 captures orientation paper_format force_pil =
    (m <- get_picture_maker false captures orientation paper_format true ;;
     Ok (build_maker (backend_choice maker_cv2 force_pil)
           (maker_width m) (maker_height m) (maker_images m))) /\
  (1 <= len captures <= 4 ->
   orientation = AUTO \/ orientation = PORTRAIT \/ orientation = LANDSCAPE ->
   exists m,
     get_picture_maker maker_cv2 captures orientation paper_format force_pil
       = Ok m /\
     maker_kind m = backend_choice maker_cv2 force_pil /\
     (maker_kind m = Accelerated <-> maker_cv2 = true /\ force_pil = false) /\
     (maker_kind m = Portable <-> maker_cv2 = false \/ force_pil = true)).
Proof.
  split; [apply get_picture_maker_rebuild|].
  intros Hlen Ho.
  destruct (get_picture_maker_succeeds maker_cv2 force_pil captures orientation
              paper_format Hlen Ho) as [m Hm].
  exists m. split; [exact Hm|].
  assert (Hk : maker_kind m = backend_choice maker_cv2 force_pil).
  { rewrite get_picture_maker_rebuild in Hm.
    destruct (get_picture_maker false captures orientation paper_format true);
      cbn [bind] in Hm; [|discriminate Hm].
    injection Hm as <-. now destruct (backend_choice maker_cv2 force_pil). }
  split; [exact Hk|]. rewrite Hk.
  destruct maker_cv2, force_pil; cbn; intuition congruence.
Qed.

Lemma backend_choice_pure_witness :
  exists m,
    get_picture_maker true [tall_capture; square_capture] AUTO (4, 6) false
      = Ok m /\
    maker_kind m = backend_choice true false /\
    (maker_kind m = Accelerated <-> true = true /\ false = false) /\
    (maker_kind m = Portable <-> true = false \/ false = true).
Proof.
  apply (proj2 (backend_choice_pure true false [tall_capture; square_capture]
                  AUTO (4, 6))).
  - split; discriminate.
  - left. reflexivity.
Defined.

(** ** Recolouring *)

Lemma clip8_id (v : Z) : 0 <= v <= 255 -> clip8 v = v.
Proof. unfold clip8. lia. Qed.

(** Gray level 0 is sent to the black end of a ramp. *)
Lemma colorize_ramp_black (black white : Z) :
  lookup (colorize_ramp black white) 0 = clip8 black.
Proof.
  unfold lookup, colorize_ramp.
  change (seq 0 255) with (0%nat :: seq 1 254).
  cbn [map app nth Z.to_nat Z.of_nat].
  rewrite Z.mul_0_l, Z.div_0_l by discriminate.
  now rewrite Z.add_0_r.
Qed.

(** Gray level 255 is sent to the white end. *)
Lemma colorize_ramp_white (black white : Z) :
  lookup (colorize_ramp black white) 255 = clip8 white.
Proof.
  unfold lookup, colorize_ramp.
  rewrite app_nth2; rewrite length_map, length_seq; [|vm_compute; lia].
  reflexivity.
Qed.

Lemma combine_map_same {A B C : Type} (f : A -> B) (g : A -> C) (l : list A) :
  combine (map f l) (map g l) = map (fun a => (f a, g a)) l.
Proof. induction l as [|a l IH]; simpl; [reflexivity | now rewrite IH]. Qed.

(** The result of recolouring an RGBA image, pixel by pixel. *)
Lemma set_picto_color_RGBA (im : Image) (px : list Pixel) (color bg : Color) :
  im_data im = DataRGBA px ->
  set_picto_color im color (Some bg) =
    Ok (mkImage (im_width im) (im_height im)
          (DataRGBA
             (map (fun p : Pixel =>
                     let '(r, g, b, a) := p in
                     (colorize_pixel bg color (luma r g b), a)) px))).
Proof.
  intros Hd. unfold set_picto_color, Image_split, Image_convert_L.
  rewrite Hd. cbn [unpack4 bind band].
  unfold ImageOps_colorize. cbn [im_data im_width im_height bind].
  unfold Image_putalpha. cbn [im_data im_width im_height band bind].
  rewrite !N.eqb_refl. cbn [andb].
  unfold with_alpha. rewrite map_map, combine_map_same.
  do 3 f_equal. apply map_ext. intros [[[r g] b] a]. reflexivity.
Qed.

Lemma set_picto_color_default (im : Image) (r g b : Z) :
  set_picto_color im (r, g, b) None =
  set_picto_color im (r, g, b)
    (Some (Z.abs (r - 255), Z.abs (g - 255), Z.abs (b - 255))).
Proof. reflexivity. Qed.

(** C5.  With no background colour, a foreground colour with channels in
    0..255 is recoloured exactly as with its channel-wise complement as
    explicit background; in an RGBA pictogram a pixel of gray level 0 (the
    black end of the colorize mapping) becomes that complement and keeps
    its alpha. *)
Theorem set_picto_color_default_background (im : Image) (r g b : Z) :
  0 <= r <= 255 -> 0 <= g <= 255 -> 0 <= b <= 255 ->
  set_picto_color im (r, g, b) None =
    set_picto_color im (r, g, b) (Some (255 - r, 255 - g, 255 - b)) /\
  (forall (px : list Pixel) (i : nat) (r0 g0 b0 a0 : Z),
     im_data im = DataRGBA px ->
     nth_error px i = Some (r0, g0, b0, a0) ->
     luma r0 g0 b0 = 0 ->
     exists out opx,
       set_picto_color im (r, g, b) None = Ok out /\
       im_data out = DataRGBA opx /\
       nth_error opx i = Some (255 - r, 255 - g, 255 - b, a0)).
Proof.
  intros Hr Hg Hb.
  assert (Hc : (Z.abs (r - 255), Z.abs (g - 255), Z.abs (b - 255)) =
               (255 - r, 255 - g, 255 - b)).
  { repeat f_equal; lia. }
  split.
  - rewrite set_picto_color_default, Hc. reflexivity.
  - intros px i r0 g0 b0 a0 Hd Hi Hl.
    rewrite set_picto_color_default, Hc, (set_picto_color_RGBA _ _ _ _ Hd).
    eexists. eexists. split; [reflexivity|]. split; [reflexivity|].
    rewrite nth_error_map, Hi. cbn [option_map]. rewrite Hl.
    unfold colorize_pixel. rewrite !colorize_ramp_black.
    rewrite !clip8_id by lia. reflexivity.
Qed.

Lemma set_picto_color_default_background_witness :
  set_picto_color arrow (200, 100, 0) None =
    set_picto_color arrow (200, 100, 0) (Some (55, 155, 255)) /\
  exists out opx,
    set_picto_color (mkImage 1 1 (DataRGBA [(0, 0, 0, 7)])) (200, 100, 0) None
      = Ok out /\
    im_data out = DataRGBA opx /\
    nth_error opx 0 = Some (55, 155, 255, 7).
Proof.
  split.
  - apply (set_picto_color_default_background arrow 200 100 0);
      split; discriminate.
  - apply (proj2 (set_picto_color_default_background
                    (mkImage 1 1 (DataRGBA [(0, 0, 0, 7)])) 200 100 0
                    ltac:(split; discriminate) ltac:(split; discriminate)
                    ltac:(split; discriminate))
             [(0, 0, 0, 7)] 0%nat 0 0 0 7);
      reflexivity.
Defined.

(** C6.  Recolouring an RGBA image succeeds and returns an RGBA image of
    the same size whose alpha band is the input's alpha band, value for
    value, for every foreground colour and every background colour, given
    or defaulted. *)
Theorem set_picto_color_preserves_alpha (im : Image) (color : Color)
    (bg_color : option Color) :
  mode im = RGBA ->
  exists out,
    set_picto_color im color bg_color = Ok out /\
    mode out = RGBA /\
    im_size out = im_size im /\
    alpha_band out = alpha_band im.
Proof.
  unfold mode. intros Hm.
  destruct (im_data im) as [px|px|px|px] eqn:Hd; try discriminate Hm.
  assert (H : forall bg, exists out,
             set_picto_color im color (Some bg) = Ok out /\
             data_mode (im_data out) = RGBA /\
             im_size out = im_size im /\
             alpha_band out = alpha_band im).
  { intros bg. rewrite (set_picto_color_RGBA _ _ _ _ Hd).
    eexists. split; [reflexivity|]. split; [reflexivity|].
    split; [reflexivity|].
    unfold alpha_band. rewrite Hd. cbn [im_data]. f_equal.
    rewrite map_map. apply map_ext. intros [[[r g] b] a]. reflexivity. }
  destruct bg_color as [bg|].
  - apply H.
  - destruct color as [[r g] b]. rewrite set_picto_color_default. apply H.
Qed.

Lemma set_picto_color_preserves_alpha_witness :
  exists out,
    set_picto_color (mkImage 2 1 (DataRGBA [(0, 0, 0, 7); (255, 255, 255, 200)]))
      (200, 100, 0) (Some (1, 2, 3)) = Ok out /\
    mode out = RGBA /\
    im_size out = (2, 1) /\
    alpha_band out = Some [7; 200].
Proof.
  apply (set_picto_color_preserves_alpha
           (mkImage 2 1 (DataRGBA [(0, 0, 0, 7); (255, 255, 255, 200)]))
           (200, 100, 0) (Some (1, 2, 3))).
  reflexivity.
Defined.

(** ** Pixel grids *)

Lemma length_flat_map_const {A B : Type} (f : A -> list B) (n : nat) (l : list A) :
  (forall a, List.length (f a) = n) ->
  List.length (flat_map f l) = (List.length l * n)%nat.
Proof.
  intros Hf. induction l as [|a l IH]; simpl; [reflexivity|].
  now rewrite length_app, Hf, IH.
Qed.

Lemma len_coords (w h : N) : len (coords w h) = Z.of_N w * Z.of_N h.
Proof.
  unfold len, coords.
  rewrite (length_flat_map_const _ (N.to_nat w))
    by (intros j; now rewrite length_map, length_seq).
  rewrite length_seq. lia.
Qed.

Lemma len_remap {A : Type} (zero : A) (w h : N) (px : list A) (w' h' : N)
    (f : Z * Z -> Z * Z) :
  len (remap zero w h px w' h' f) = Z.of_N w' * Z.of_N h'.
Proof.
  unfold remap. rewrite <- len_coords. unfold len. now rewrite length_map.
Qed.

Lemma nth_Forall {A : Type} (Q : A -> Prop) (l : list A) (d : A) (n : nat) :
  Q d -> Forall Q l -> Q (nth n l d).
Proof.
  intros Hd Hl. destruct (nth_in_or_default n l d) as [Hin | ->]; [|exact Hd].
  rewrite Forall_forall in Hl. now apply Hl.
Qed.

Lemma pixel_at_Forall {A : Type} (Q : A -> Prop) (zero : A) (w h : N)
    (px : list A) (xy : Z * Z) :
  Q zero -> Forall Q px -> Q (pixel_at zero w h px xy).
Proof.
  intros Hz Hpx. unfold pixel_at. destruct xy as [x y].
  destruct (_ && _); [now apply nth_Forall | exact Hz].
Qed.

(** Every pixel of a remapped grid is a source pixel or the zero pixel. *)
Lemma remap_Forall {A : Type} (Q : A -> Prop) (zero : A) (w h : N)
    (px : list A) (w' h' : N) (f : Z * Z -> Z * Z) :
  Q zero -> Forall Q px -> Forall Q (remap zero w h px w' h' f).
Proof.
  intros Hz Hpx. unfold remap. apply Forall_map, Forall_forall.
  intros xy _. now apply pixel_at_Forall.
Qed.

(** ** Sizing *)

Lemma ratio_gtb_same (x y : Z) : ratio_gtb x y x y = false.
Proof. unfold ratio_gtb. now rewrite Z.sub_diag. Qed.

Lemma new_size_keep_aspect_ratio_same (x y : Z) :
  y <> 0 -> new_size_keep_aspect_ratio (x, y) (x, y) = Ok (x, y).
Proof.
  intros Hy. unfold new_size_keep_aspect_ratio.
  apply Z.eqb_neq in Hy. now rewrite Hy, ratio_gtb_same.
Qed.

Lemma new_size_by_croping_ratio_same (x y : Z) :
  y <> 0 -> new_size_by_croping_ratio (x, y) (x, y) = Ok (0, 0, x, y).
Proof.
  intros Hy. unfold new_size_by_croping_ratio.
  apply Z.eqb_neq in Hy. rewrite Hy, ratio_gtb_same. cbn [orb bind].
  now rewrite !Z.sub_diag.
Qed.

Lemma new_size_keep_aspect_ratio_zero_height (original_size : Z * Z) (tx : Z) :
  new_size_keep_aspect_ratio original_size (tx, 0) = Raise ZeroDivisionError.
Proof.
  destruct original_size as [ox oy]. unfold new_size_keep_aspect_ratio.
  now rewrite orb_true_r.
Qed.

Lemma new_size_by_croping_ratio_zero_height (original_size : Z * Z) (tx : Z) :
  new_size_by_croping_ratio original_size (tx, 0) = Raise ZeroDivisionError.
Proof.
  destruct original_size as [ox oy]. unfold new_size_by_croping_ratio.
  now rewrite orb_true_r.
Qed.

(** ** Transparent placeholders *)

Lemma Image_new_RGBA_transparent (w h : Z) :
  0 <= w -> 0 <= h ->
  exists im,
    Image_new_RGBA (w, h) (0, 0, 0, 0) = Ok im /\ transparent_image im w h.
Proof.
  intros Hw Hh. unfold Image_new_RGBA. cbn [fst snd].
  replace ((w <? 0) || (h <? 0)) with false
    by (symmetry; apply orb_false_iff; rewrite !Z.ltb_ge; lia).
  eexists. split; [reflexivity|]. split.
  - unfold im_size. cbn [im_width im_height]. f_equal; lia.
  - eexists. split; [reflexivity|]. split.
    + unfold len. rewrite repeat_length. lia.
    + apply Forall_forall. intros p Hp. apply repeat_spec in Hp. now subst p.
Qed.

Lemma set_picto_color_transparent (im : Image) (w h : Z) (color : Color)
    (bg_color : option Color) :
  transparent_image im w h ->
  exists out,
    set_picto_color im color bg_color = Ok out /\ transparent_image out w h.
Proof.
  intros [Hs [px [Hd [Hl Ha]]]].
  assert (H : forall bg, exists out,
             set_picto_color im color (Some bg) = Ok out /\
             transparent_image out w h).
  { intros bg. rewrite (set_picto_color_RGBA _ _ _ _ Hd).
    eexists. split; [reflexivity|]. split; [exact Hs|].
    eexists. split; [reflexivity|]. split.
    - unfold len in *. now rewrite length_map.
    - apply Forall_map. revert Ha. apply Forall_impl.
      intros [[[r g] b] a]. auto. }
  destruct bg_color as [bg|].
  - apply H.
  - destruct color as [[r g] b]. rewrite set_picto_color_default. apply H.
Qed.

Lemma Image_crop_transparent (im : Image) (w h : Z) :
  0 <= w -> 0 <= h ->
  transparent_image im w h ->
  transparent_image (Image_crop im (0, 0, w, h)) w h.
Proof.
  intros Hw Hh [Hs [px [Hd [Hl Ha]]]].
  unfold Image_crop, data_remap. rewrite Hd, !Z.sub_0_r. split.
  - unfold im_size. cbn [im_width im_height]. f_equal; lia.
  - eexists. split; [reflexivity|]. split.
    + rewrite len_remap. lia.
    + now apply remap_Forall.
Qed.

Lemma image_fromstring_transparent (im : Image) (w h : Z) :
  0 < w -> 0 < h ->
  transparent_image im w h ->
  exists s,
    image_fromstring (im_data im) (im_size im) = Ok s /\
    get_size s = (w, h) /\
    len (surf_pixels s) = w * h /\
    fully_transparent s.
Proof.
  intros Hw Hh [Hs [px [Hd [Hl Ha]]]].
  unfold image_fromstring. rewrite Hs, Hd.
  replace ((w <? 1) || (h <? 1)) with false
    by (symmetry; apply orb_false_iff; rewrite !Z.ltb_ge; lia).
  rewrite Hl, Z.eqb_refl.
  eexists. split; [reflexivity|]. split.
  - unfold get_size. cbn [surf_width surf_height]. f_equal; lia.
  - split; [exact Hl|]. split; [reflexivity | exact Ha].
Qed.

Lemma transform_flip_transparent (s : Surface) (xbool ybool : bool) :
  fully_transparent s ->
  get_size (transform_flip s xbool ybool) = get_size s /\
  fully_transparent (transform_flip s xbool ybool).
Proof.
  intros [Halpha Hpx]. split; [reflexivity|]. split; [exact Halpha|].
  unfold transform_flip. cbn [surf_pixels]. now apply remap_Forall.
Qed.

(** A flipped surface has one pixel for each position of its grid. *)
Lemma transform_flip_len (s : Surface) (xbool ybool : bool) :
  len (surf_pixels (transform_flip s xbool ybool)) =
    fst (get_size s) * snd (get_size s).
Proof. unfold transform_flip. cbn [surf_pixels]. apply len_remap. Qed.

(** ** Failures of the image primitives *)

Lemma set_picto_color_raises (im : Image) (color : Color)
    (bg_color : option Color) (e : exception) :
  set_picto_color im color bg_color = Raise e -> e = ValueError.
Proof.
  unfold set_picto_color, Image_split.
  destruct (im_data im) as [px|px|px|px] eqn:Hd; cbn [unpack4 bind];
    try (now intros [= <-]).
  unfold Image_convert_L. rewrite Hd. unfold ImageOps_colorize.
  cbn [band im_data im_width im_height bind]. unfold Image_putalpha.
  cbn [im_data im_width im_height]. rewrite !N.eqb_refl. discriminate.
Qed.

Lemma Image_new_RGBA_negative (w h : Z) (color : Pixel) :
  w < 0 \/ h < 0 -> Image_new_RGBA (w, h) color = Raise ValueError.
Proof.
  intros H. unfold Image_new_RGBA. cbn [fst snd].
  replace ((w <? 0) || (h <? 0)) with true; [reflexivity|].
  symmetry. apply orb_true_iff. now rewrite !Z.ltb_lt.
Qed.

Section LoaderProperties.

Context {P : Primitives}.

Lemma Image_resize_same (im : Image) (filter : Filter) :
  Image_resize im (im_size im) filter = Ok im.
Proof. unfold Image_resize. now rewrite !Z.eqb_refl. Qed.

(** A successful resize returns an image of the requested size. *)
Lemma Image_resize_size (im out : Image) (size : Z * Z) (filter : Filter) :
  Image_resize im size filter = Ok out -> im_size out = size.
Proof.
  unfold Image_resize. destruct size as [w h]. cbn [fst snd].
  destruct (Z.eqb_spec w (fst (im_size im))) as [Hw|Hw];
    [destruct (Z.eqb_spec h (snd (im_size im))) as [Hh|Hh]|]; cbn [andb].
  - intros [= <-]. subst w h. now destruct (im_size im).
  - destruct (Z.leb_spec w 0), (Z.leb_spec h 0); cbn [orb];
      try discriminate. intros [= <-]. unfold im_size.
    cbn [im_width im_height]. f_equal; lia.
  - destruct (Z.leb_spec w 0), (Z.leb_spec h 0); cbn [orb];
      try discriminate. intros [= <-]. unfold im_size.
    cbn [im_width im_height]. f_equal; lia.
Qed.

Lemma Image_resize_raises (im : Image) (size : Z * Z) (filter : Filter)
    (e : exception) :
  Image_resize im size filter = Raise e -> e = ValueError.
Proof.
  unfold Image_resize. destruct (_ && _); [discriminate|].
  destruct (_ || _); [now intros [= <-] | discriminate].
Qed.

(** A transparent image of the target size goes through crop, resize and
    surface construction as it is. *)
Lemma transparent_pipeline (im : Image) (w h : Z) (crop : bool)
    (filter : Filter) :
  0 < w -> 0 < h ->
  transparent_image im w h ->
  exists s,
    (pil_image <-
       (if crop
        then box <- new_size_by_croping_ratio (im_size im) (w, h) ;;
             Ok (Image_crop im box)
        else Ok im) ;;
     new_size <- new_size_keep_aspect_ratio (im_size pil_image) (w, h) ;;
     pil_image <- Image_resize pil_image new_size filter ;;
     image_fromstring (im_data pil_image) (im_size pil_image)) = Ok s /\
    get_size s = (w, h) /\
    len (surf_pixels s) = w * h /\
    fully_transparent s.
Proof.
  intros Hw Hh T.
  assert (H2 : exists im2,
             (if crop
              then box <- new_size_by_croping_ratio (im_size im) (w, h) ;;
                   Ok (Image_crop im box)
              else Ok im) = Ok im2 /\ transparent_image im2 w h).
  { destruct crop; [|now exists im].
    assert (Hs : im_size im = (w, h)) by apply T.
    rewrite Hs, new_size_by_croping_ratio_same, bind_Ok by lia.
    eexists. split; [reflexivity|]. apply Image_crop_transparent; auto; lia. }
  destruct H2 as [im2 [-> T2]]. rewrite bind_Ok.
  assert (Hs : im_size im2 = (w, h)) by apply T2.
  replace (new_size_keep_aspect_ratio (im_size im2) (w, h))
    with (Ok (im_size im2))
    by (rewrite Hs; symmetry; apply new_size_keep_aspect_ratio_same; lia).
  rewrite bind_Ok, Image_resize_same, bind_Ok.
  now apply image_fromstring_transparent.
Qed.

(** C7, as amended.  When the asset file does not exist, a call with a
    target size of positive width and height and no rotation returns a
    surface of exactly that size: one pixel for each position, every pixel
    with alpha 0, whatever the antialiasing, flip and crop flags and the
    colours are.  A rotation that is requested is applied to that
    surface. *)
Theorem missing_asset_placeholder (W : World) (name : string) (w h : Z)
    (antialiasing hflip vflip crop : bool) (color : Color)
    (bg_color : option Color) :
  osp_isfile W (get_filename W name) = false ->
  0 < w -> 0 < h ->
  exists s,
    get_size s = (w, h) /\
    len (surf_pixels s) = w * h /\
    fully_transparent s /\
    get_pygame_image W name (Some (w, h)) antialiasing hflip vflip crop 0
      color bg_color = Ok s /\
    forall angle, angle <> 0 ->
      get_pygame_image W name (Some (w, h)) antialiasing hflip vflip crop
        angle color bg_color = Ok (transform_rotate s angle).
Proof.
  intros Hfile Hw Hh.
  destruct (Image_new_RGBA_transparent w h) as [im0 [Hnew T0]]; [lia | lia |].
  assert (H1 : exists im1,
             (if negb (Color_eqb color (255, 255, 255))
              then set_picto_color im0 color bg_color
              else Ok im0) = Ok im1 /\ transparent_image im1 w h).
  { destruct (negb _).
    - now apply set_picto_color_transparent.
    - now exists im0. }
  destruct H1 as [im1 [Hcol T1]].
  destruct (transparent_pipeline im1 w h crop
              (if antialiasing then ANTIALIAS else NEAREST) Hw Hh T1)
    as [s0 [Hpipe [Hsz [Hlen Htr]]]].
  set (s := if hflip || vflip then transform_flip s0 hflip vflip else s0).
  assert (Hs : get_size s = (w, h) /\ len (surf_pixels s) = w * h /\
               fully_transparent s).
  { subst s. destruct (hflip || vflip); [|auto].
    destruct (transform_flip_transparent s0 hflip vflip Htr) as [Hsz' Htr'].
    rewrite transform_flip_len, Hsz', Hsz. auto. }
  exists s. destruct Hs as [Hs1 [Hs2 Hs3]].
  repeat (split; [assumption|]).
  assert (Hcall : forall angle,
             get_pygame_image W name (Some (w, h)) antialiasing hflip vflip
               crop angle color bg_color =
             Ok (if negb (angle =? 0) then transform_rotate s angle else s)).
  { intros angle. unfold get_pygame_image.
    rewrite Hfile, Hnew, bind_Ok, Hcol, bind_Ok, Hpipe. reflexivity. }
  split.
  - apply Hcall.
  - intros angle Hangle. rewrite Hcall.
    apply Z.eqb_neq in Hangle. now rewrite Hangle.
Qed.

(** Flips keep the size of a surface. *)
Lemma flip_then_rotate_size (hflip vflip : bool) (s : Surface) :
  get_size (flip_then_rotate hflip vflip 0 s) = get_size s.
Proof.
  unfold flip_then_rotate. change (negb (0 =? 0)) with false.
  now destruct (hflip || vflip).
Qed.

(** C8, as amended.  Without a target size an asset that decodes is loaded
    at its native resolution and converted to the pixel format of the
    display; no recolouring, crop or resize is applied, whatever the
    antialiasing and crop flags and the colours are.  The flips and then
    the rotation are still applied to the converted surface; when none is
    requested the converted surface is returned, and as long as no
    rotation is requested the surface has the width and height of the
    asset.  The conversion is assumed to keep the size of a surface. *)
Theorem native_size_processing (W : World) (name : string) (im : Image)
    (antialiasing hflip vflip crop : bool) (angle : Z) (color : Color)
    (bg_color : option Color) :
  files W (get_filename W name) = Some (Picture im) ->
  (forall s, get_size (display_convert s) = get_size s) ->
  let converted := display_convert (decoded_surface im) in
  get_size converted = im_size im /\
  get_pygame_image W name None antialiasing false false crop 0
    color bg_color = Ok converted /\
  get_pygame_image W name None antialiasing hflip vflip crop angle
    color bg_color = Ok (flip_then_rotate hflip vflip angle converted) /\
  get_size (flip_then_rotate hflip vflip 0 converted) = im_size im.
Proof.
  intros Hf Hconv converted.
  assert (Hsz : get_size converted = im_size im).
  { subst converted. rewrite Hconv. unfold decoded_surface.
    now destruct (im_data im). }
  split; [exact Hsz|].
  unfold get_pygame_image, image_load. rewrite Hf, !bind_Ok.
  split; [reflexivity|]. split; [reflexivity|].
  now rewrite flip_then_rotate_size.
Qed.

(** With a target height of zero the helpers fail on the aspect ratio. *)
Lemma zero_height_pipeline (im : Image) (w : Z) (crop : bool)
    (filter : Filter) :
  (pil_image <-
     (if crop
      then box <- new_size_by_croping_ratio (im_size im) (w, 0) ;;
           Ok (Image_crop im box)
      else Ok im) ;;
   new_size <- new_size_keep_aspect_ratio (im_size pil_image) (w, 0) ;;
   pil_image <- Image_resize pil_image new_size filter ;;
   image_fromstring (im_data pil_image) (im_size pil_image))
  = Raise ZeroDivisionError.
Proof.
  destruct crop.
  - now rewrite new_size_by_croping_ratio_zero_height.
  - now rewrite bind_Ok, new_size_keep_aspect_ratio_zero_height.
Qed.


End LoaderProperties.

(** ** Evaluation on the sample world *)

Lemma missing_asset_placeholder_witness :
  exists s,
    get_size s = (3, 2) /\
    len (surf_pixels s) = 3 * 2 /\
    fully_transparent s /\
    get_pygame_image (P := sample_primitives) sample_world "layout9.png"
      (Some (3, 2)) true true false true 0 (10, 20, 30) None = Ok s /\
    forall angle, angle <> 0 ->
      get_pygame_image (P := sample_primitives) sample_world "layout9.png"
        (Some (3, 2)) true true false true angle (10, 20, 30) None =
      Ok (transform_rotate (Primitives := sample_primitives) s angle).
Proof.
  apply (missing_asset_placeholder (P := sample_primitives) sample_world
           "layout9.png" 3 2 true true false true (10, 20, 30) None).
  - reflexivity.
  - lia.
  - lia.
Defined.

(** C7 as stated fails: a requested rotation is applied to the
    placeholder, so with a quarter turn a target of 3 by 2 comes back 2 by
    3. *)
Lemma missing_asset_rotation_counterexample :
  ~ (forall (P : Primitives) (W : World) (name : string) (w h : Z)
       (antialiasing hflip vflip crop : bool) (angle : Z) (color : Color)
       (bg_color : option Color),
       osp_isfile W (get_filename W name) = false ->
       exists s,
         get_pygame_image W name (Some (w, h)) antialiasing hflip vflip crop
           angle color bg_color = Ok s /\
         get_size s = (w, h) /\
         fully_transparent s).
Proof.
  intros H.
  destruct (H sample_primitives sample_world "layout9.png"%string 3 2
              true false false false 90 (255, 255, 255) None eq_refl)
    as [s [Hs [Hsz _]]].
  vm_compute in Hs. injection Hs as <-. discriminate Hsz.
Qed.

Lemma native_size_processing_witness :
  get_pygame_image (P := sample_primitives) sample_world "arrow.png" None
    true true false false 0 (255, 255, 255) None =
  Ok (mkSurface 2 1 true [(0, 0, 255, 128); (255, 0, 0, 255)]).
Proof.
  apply (native_size_processing (P := sample_primitives) sample_world
           "arrow.png" arrow true true false false 0 (255, 255, 255) None).
  - reflexivity.
  - reflexivity.
Defined.



(** C8 as stated fails: without a target size a requested horizontal flip
    is applied, so the result is not the plain decoded asset. *)
Lemma native_size_flip_counterexample :
  ~ (forall (P : Primitives) (W : World) (name : string)
       (antialiasing hflip vflip crop : bool) (angle : Z) (color : Color)
       (bg_color : option Color),
       get_pygame_image W name None antialiasing hflip vflip crop angle
         color bg_color =
       (s <- image_load W (get_filename W name) ;; Ok (display_convert s))).
Proof.
  intros H.
  specialize (H sample_primitives sample_world "arrow.png"%string
                true true false false 0 (255, 255, 255) None).
  vm_compute in H. discriminate H.
Qed.

(** ** get_layout_image *)

Lemma all_below_spec (n : N) (p : Z -> bool) :
  all_below n p = true -> forall z, 0 <= z < Z.of_N n -> p z = true.
Proof.
  unfold all_below.
  set (f := fun st : Z * bool => (fst st + 1, snd st && p (fst st))).
  assert (H : fst (N.iter n f (0, true)) = Z.of_N n /\
              (snd (N.iter n f (0, true)) = true ->
               forall z, 0 <= z < Z.of_N n -> p z = true)).
  { induction n as [|n [IH1 IH2]] using N.peano_ind.
    - split; [reflexivity|]. intros _ z Hz. cbn in Hz. lia.
    - rewrite N.iter_succ. unfold f at 1 3. cbn [fst snd]. split; [lia|].
      rewrite andb_true_iff. intros [Ha Hb] z Hz.
      destruct (Z.eq_dec z (Z.of_N n)) as [->|Hne].
      + now rewrite <- IH1.
      + apply IH2; [exact Ha | lia]. }
  apply H.
Qed.

(** The four constants of the caption rectangle are the binary64 numbers
    Python reads from the literals 0.3, 0.76, 0.7 and 0.20: the correctly
    rounded quotients 3/10, 76/100, 7/10 and 20/100. *)
Lemma caption_constants :
  float_of_int 3 = Ok 3%float /\
  (3 / 10 = 0x1.3333333333333p-2)%float /\
  (76 / 100 = 0x1.851eb851eb852p-1)%float /\
  (7 / 10 = 0x1.6666666666666p-1)%float /\
  (20 / 100 = 0x1.999999999999ap-3)%float.
Proof. repeat split; vm_compute; reflexivity. Qed.

(** Below 2^63 the nearest binary64 number is the one the machine's
    conversion gives. *)
Lemma float_of_int_uint63 (z : Z) :
  0 <= z < 2 ^ 63 -> float_of_int z = float_of_uint63 z.
Proof.
  intros Hz. unfold float_of_int, float_of_uint63.
  rewrite <- (SF2Prim_Prim2SF (PrimFloat.of_uint63 (Uint63.of_Z z))).
  rewrite of_uint63_spec, Uint63.of_Z_spec.
  rewrite Z.mod_small; [reflexivity | exact Hz].
Qed.

Lemma caption_rect_uint63_eq (x y w h : Z) :
  0 <= x < 2 ^ 63 -> 0 <= y < 2 ^ 63 -> 0 <= w < 2 ^ 63 -> 0 <= h < 2 ^ 63 ->
  caption_rect (mkRect x y w h) = caption_rect_uint63 (mkRect x y w h).
Proof.
  intros Hx Hy Hw Hh.
  unfold caption_rect, caption_rect_uint63, int_mul_float, float_div_int,
    int_add_float.
  cbn [rect_x rect_y rect_width rect_height Z.eqb].
  rewrite (float_of_int_uint63 x Hx), (float_of_int_uint63 y Hy),
    (float_of_int_uint63 w Hw), (float_of_int_uint63 h Hh),
    (float_of_int_uint63 2 ltac:(lia)).
  reflexivity.
Qed.

(** The truncation written with a product and a quotient. *)
Lemma int_of_float_finite (f : float) (sign : bool) (m : positive) (e : Z) :
  Prim2SF f = S754_finite sign m e ->
  int_of_float f =
    Ok (let v := if 0 <=? e then Z.pos m * 2 ^ e else Z.pos m / 2 ^ (- e) in
        if sign then - v else v).
Proof.
  intros H. unfold int_of_float. rewrite H. cbv zeta.
  destruct (0 <=? e) eqn:He.
  - apply Z.leb_le in He. now rewrite Z.shiftl_mul_pow2.
  - apply Z.leb_gt in He. now rewrite Z.shiftr_div_pow2 by lia.
Qed.

Lemma percent_floor_spec (p v q : Z) :
  percent_floor p v q = true -> q = p * v / 100.
Proof.
  unfold percent_floor. rewrite andb_true_iff, Z.leb_le, Z.ltb_lt.
  intros [H1 H2]. apply Z.div_unique with (r := p * v - 100 * q); lia.
Qed.

(** Every side from 0 to 65535, by evaluation of the float arithmetic. *)
Lemma caption_rect_checked_all : all_below 65536 caption_rect_checked = true.
Proof. vm_cast_no_check (eq_refl true). Qed.

(** The horizontal entries of the rectangle depend on the width only, the
    vertical ones on the height only. *)
Lemma caption_rect_split (w h : Z) (r1 r2 : Rect) :
  caption_rect (mkRect 0 0 w w) = Ok r1 ->
  caption_rect (mkRect 0 0 h h) = Ok r2 ->
  caption_rect (mkRect 0 0 w h) =
    Ok (mkRect (rect_x r1) (rect_y r2) (rect_width r1) (rect_height r2)).
Proof.
  unfold caption_rect, Rect_of_floats.
  cbn [rect_x rect_y rect_width rect_height].
  intros H1 H2.
  repeat match type of H1 with
         | bind ?r _ = Ok _ =>
             destruct r eqn:?; cbn [bind] in H1; [|discriminate H1]
         end.
  repeat match type of H2 with
         | bind ?r _ = Ok _ =>
             destruct r eqn:?; cbn [bind] in H2; [|discriminate H2]
         end.
  injection H1 as <-. injection H2 as <-.
  cbn [bind rect_x rect_y rect_width rect_height].
  repeat match goal with
         | H : ?t = Ok _ |- context [?t] => rewrite H; cbn [bind]
         end.
  reflexivity.
Qed.

(** The caption rectangle of a template of up to 65535 pixels a side. *)
Lemma caption_rect_bounded (w h : Z) :
  0 <= w <= 65535 -> 0 <= h <= 65535 ->
  exists rect,
    caption_rect (mkRect 0 0 w h) = Ok rect /\
    rect_x rect = 15 * w / 100 /\
    rect_y rect = 76 * h / 100 /\
    rect_height rect = 20 * h / 100 /\
    (rect_width rect = 70 * w / 100 \/
     (rect_width rect = 70 * w / 100 - 1 /\ w mod 10 = 0)).
Proof.
  intros Hw Hh.
  pose proof (all_below_spec _ _ caption_rect_checked_all w ltac:(lia)) as Cw.
  pose proof (all_below_spec _ _ caption_rect_checked_all h ltac:(lia)) as Ch.
  unfold caption_rect_checked in Cw, Ch.
  rewrite <- caption_rect_uint63_eq in Cw, Ch by lia.
  destruct (caption_rect (mkRect 0 0 w w)) as [r1|] eqn:H1; [|discriminate Cw].
  destruct (caption_rect (mkRect 0 0 h h)) as [r2|] eqn:H2; [|discriminate Ch].
  exists (mkRect (rect_x r1) (rect_y r2) (rect_width r1) (rect_height r2)).
  split; [now apply caption_rect_split|].
  cbn [rect_x rect_y rect_width rect_height].
  rewrite !andb_true_iff, orb_true_iff in Cw, Ch.
  destruct Cw as [[[Cx _] _] Cw], Ch as [[[_ Cy] Chh] _].
  apply percent_floor_spec in Cx, Cy, Chh.
  repeat split; [exact Cx | exact Cy | exact Chh |].
  destruct Cw as [Cw | Cw].
  - left. now apply percent_floor_spec.
  - right. apply Z.eqb_eq in Cw. split.
    + assert (H : rect_width r1 + 1 = 70 * w / 100)
        by (apply Z.div_unique with (r := 0); lia).
      lia.
    + symmetry.
      apply Z.mod_unique with (q := 3 * (rect_width r1 + 1) - 2 * w); lia.
Qed.

Section LayoutProperties.

Context {P : Primitives} {C : Captions}.


End LayoutProperties.



(** * Further properties of the module *)

(** ** get_best_orientation *)

(** The three ways a call can end, by the length of the list. *)
Lemma get_best_orientation_cases (captures : list Image) :
  (len captures = 0 /\ get_best_orientation captures = Raise IndexError) \/
  (1 <= len captures <= 4 /\
   (get_best_orientation captures = Ok PORTRAIT \/
    get_best_orientation captures = Ok LANDSCAPE)) \/
  (4 < len captures /\ get_best_orientation captures = Raise ValueError).
Proof.
  destruct captures as [|c0 rest]; [left; split; reflexivity|]. right.
  destruct (Z.le_gt_cases (len (c0 :: rest)) 4) as [Hle|Hgt].
  - left.
    assert (Hpos : 1 <= len (c0 :: rest)) by (unfold len; simpl List.length; lia).
    split; [lia|].
    assert (Hc : (len (c0 :: rest) = 1 \/ len (c0 :: rest) = 4) \/
                 (len (c0 :: rest) = 2 \/ len (c0 :: rest) = 3)) by lia.
    destruct Hc as [Hc|Hc].
    + rewrite (get_best_orientation_1_4 _ _ Hc). destruct (_ <? _); auto.
    + rewrite (get_best_orientation_2_3 _ _ Hc). destruct (_ <? _); auto.
  - right. split; [lia|]. now apply get_best_orientation_too_many.
Qed.

(** X1.  How a call ends is read off the length of the list alone: it
    raises IndexError exactly on the empty list, ValueError exactly on
    more than four captures, and returns an orientation exactly on one to
    four. *)
Theorem get_best_orientation_outcome (captures : list Image) :
  (get_best_orientation captures = Raise IndexError <-> len captures = 0) /\
  (get_best_orientation captures = Raise ValueError <-> 4 < len captures) /\
  ((exists o, get_best_orientation captures = Ok o) <-> 1 <= len captures <= 4).
Proof.
  destruct (get_best_orientation_cases captures)
    as [[Hl Hr] | [[Hl [Hr|Hr]] | [Hl Hr]]]; rewrite Hr;
    (split; [|split]); split; intros H;
    try discriminate H; try lia; try reflexivity;
    try (destruct H as [o H]; discriminate H); eauto.
Qed.

(** X2.  A returned orientation is PORTRAIT or LANDSCAPE, never AUTO. *)
Theorem get_best_orientation_concrete (captures : list Image) (o : string) :
  get_best_orientation captures = Ok o ->
  (o = PORTRAIT \/ o = LANDSCAPE) /\ o <> AUTO.
Proof.
  intros H.
  destruct (get_best_orientation_cases captures)
    as [[_ Hr] | [[_ [Hr|Hr]] | [_ Hr]]]; rewrite Hr in H;
    try discriminate H; injection H as <-; split; auto; discriminate.
Qed.

Lemma get_best_orientation_concrete_witness :
  (LANDSCAPE = PORTRAIT \/ LANDSCAPE = LANDSCAPE) /\ LANDSCAPE <> AUTO.
Proof.
  apply (get_best_orientation_concrete [square_capture] LANDSCAPE).
  reflexivity.
Defined.

(** X3.  Only the number of captures and the size of the first one
    matter: the pixels of the first capture and everything about the
    others are never looked at. *)
Theorem get_best_orientation_first_only (c0 c0' : Image) (rest rest' : list Image) :
  im_size c0 = im_size c0' ->
  List.length rest = List.length rest' ->
  get_best_orientation (c0 :: rest) = get_best_orientation (c0' :: rest').
Proof.
  intros Hs Hl. unfold get_best_orientation, getitem. cbn [nth_error bind].
  unfold len. cbn [List.length]. now rewrite Hs, Hl.
Qed.

Lemma get_best_orientation_first_only_witness :
  get_best_orientation [tall_capture; square_capture] =
  get_best_orientation [mkImage 2 3 (DataL []); tall_capture].
Proof.
  apply (get_best_orientation_first_only tall_capture (mkImage 2 3 (DataL []))
           [square_capture] [tall_capture]); reflexivity.
Defined.

(** ** get_picture_maker *)

Lemma paper_portrait (a b : Z) :
  (if a >? b then (b, a) else (a, b)) = (Z.min a b, Z.max a b).
Proof. destruct (Z.gtb_spec a b); f_equal; lia. Qed.

Lemma get_picture_maker_PORTRAIT (maker_cv2 force_pil : bool)
    (captures : list Image) (a b : Z) :
  get_picture_maker maker_cv2 captures PORTRAIT (a, b) force_pil =
    Ok (build_maker (backend_choice maker_cv2 force_pil)
          (Z.min a b * 600) (Z.max a b * 600) captures).
Proof.
  unfold get_picture_maker. cbn [fst snd]. rewrite paper_portrait.
  change (String.eqb PORTRAIT AUTO) with false.
  change (String.eqb PORTRAIT PORTRAIT) with true.
  change (String.eqb PORTRAIT LANDSCAPE) with false.
  cbn [orb negb bind fst snd]. now destruct maker_cv2, force_pil.
Qed.

Lemma get_picture_maker_LANDSCAPE (maker_cv2 force_pil : bool)
    (captures : list Image) (a b : Z) :
  get_picture_maker maker_cv2 captures LANDSCAPE (a, b) force_pil =
    Ok (build_maker (backend_choice maker_cv2 force_pil)
          (Z.max a b * 600) (Z.min a b * 600) captures).
Proof.
  unfold get_picture_maker. cbn [fst snd]. rewrite paper_portrait.
  change (String.eqb LANDSCAPE AUTO) with false.
  change (String.eqb LANDSCAPE PORTRAIT) with false.
  change (String.eqb LANDSCAPE LANDSCAPE) with true.
  cbn [orb negb bind fst snd]. now destruct maker_cv2, force_pil.
Qed.

Lemma get_picture_maker_AUTO (maker_cv2 force_pil : bool)
    (captures : list Image) (paper_format : Z * Z) (o : string) :
  get_best_orientation captures = Ok o ->
  get_picture_maker maker_cv2 captures AUTO paper_format force_pil =
  get_picture_maker maker_cv2 captures o paper_format force_pil.
Proof.
  intros Ho. unfold get_picture_maker at 1.
  change (String.eqb AUTO AUTO) with true. cbn [orb negb]. rewrite Ho, bind_Ok.
  destruct (get_best_orientation_cases captures)
    as [[_ Hr] | [[_ [Hr|Hr]] | [_ Hr]]]; rewrite Hr in Ho;
    try discriminate Ho; injection Ho as <-; destruct paper_format as [a b].
  - rewrite get_picture_maker_PORTRAIT. cbn [fst snd]. rewrite paper_portrait.
    change (String.eqb PORTRAIT LANDSCAPE) with false.
    cbn [fst snd]. now destruct maker_cv2, force_pil.
  - rewrite get_picture_maker_LANDSCAPE. cbn [fst snd]. rewrite paper_portrait.
    change (String.eqb LANDSCAPE LANDSCAPE) with true.
    cbn [fst snd]. now destruct maker_cv2, force_pil.
Qed.

(** X4.  An orientation other than the three constants is refused with
    the AssertionError before anything else is looked at, whatever the
    captures, the paper format and the flags. *)
Theorem get_picture_maker_unknown_orientation (maker_cv2 force_pil : bool)
    (captures : list Image) (orientation : string) (paper_format : Z * Z) :
  orientation <> AUTO -> orientation <> PORTRAIT -> orientation <> LANDSCAPE ->
  get_picture_maker maker_cv2 captures orientation paper_format force_pil =
    Raise AssertionError.
Proof.
  intros Ha Hp Hl. unfold get_picture_maker.
  apply String.eqb_neq in Ha, Hp, Hl. now rewrite Ha, Hp, Hl.
Qed.

Lemma get_picture_maker_unknown_orientation_witness :
  get_picture_maker true [] "Portrait" (4, 6) false = Raise AssertionError.
Proof.
  apply (get_picture_maker_unknown_orientation true false [] "Portrait" (4, 6));
    discriminate.
Defined.

(** X5.  With an explicit orientation and one to four captures a maker
    is returned whose canvas is 600 times the paper format, smaller side
    first for PORTRAIT and larger side first for LANDSCAPE, in whichever
    order the format was given; the sizes of the captures play no part. *)
Theorem explicit_orientation_canvas (maker_cv2 force_pil : bool)
    (captures : list Image) (a b : Z) :
  1 <= len captures <= 4 ->
  get_picture_maker maker_cv2 captures PORTRAIT (a, b) force_pil =
    Ok (build_maker (backend_choice maker_cv2 force_pil)
          (Z.min a b * 600) (Z.max a b * 600) captures) /\
  get_picture_maker maker_cv2 captures LANDSCAPE (a, b) force_pil =
    Ok (build_maker (backend_choice maker_cv2 force_pil)
          (Z.max a b * 600) (Z.min a b * 600) captures).
Proof.
  intros _.
  split; [apply get_picture_maker_PORTRAIT | apply get_picture_maker_LANDSCAPE].
Qed.

Lemma explicit_orientation_canvas_witness :
  get_picture_maker false [tall_capture; square_capture] PORTRAIT (6, 4) false =
    Ok (PilPictureMaker 2400 3600 [tall_capture; square_capture]) /\
  get_picture_maker false [tall_capture; square_capture] LANDSCAPE (6, 4) false =
    Ok (PilPictureMaker 3600 2400 [tall_capture; square_capture]).
Proof.
  apply (explicit_orientation_canvas false false
           [tall_capture; square_capture] 6 4).
  split; discriminate.
Defined.

(** X6.  The order in which the two sides of the paper format are given is
    immaterial, for every orientation and also when the call fails. *)
Theorem paper_format_order_invariant (maker_cv2 force_pil : bool)
    (captures : list Image) (orientation : string) (a b : Z) :
  get_picture_maker maker_cv2 captures orientation (a, b) force_pil =
  get_picture_maker maker_cv2 captures orientation (b, a) force_pil.
Proof.
  unfold get_picture_maker. destruct (negb _); [reflexivity|].
  destruct (if String.eqb orientation AUTO then _ else _) as [o|e];
    [|reflexivity].
  rewrite !bind_Ok. cbn [fst snd]. rewrite !paper_portrait.
  now rewrite (Z.min_comm b a), (Z.max_comm b a).
Qed.

(** X7.  With the orientation left to AUTO the call ends as the resolver
    does: IndexError exactly on the empty list, ValueError exactly on more
    than four captures, a maker exactly on one to four. *)
Theorem get_picture_maker_auto_outcome (maker_cv2 force_pil : bool)
    (captures : list Image) (paper_format : Z * Z) :
  let r := get_picture_maker maker_cv2 captures AUTO paper_format force_pil in
  (r = Raise IndexError <-> len captures = 0) /\
  (r = Raise ValueError <-> 4 < len captures) /\
  ((exists m, r = Ok m) <-> 1 <= len captures <= 4).
Proof.
  intros r. subst r. destruct paper_format as [a b].
  destruct (get_best_orientation_cases captures)
    as [[Hl Hr] | [[Hl [Hr|Hr]] | [Hl Hr]]].
  - rewrite (get_picture_maker_propagates _ _ _ _ _ Hr).
    (split; [|split]); split; intros H; try discriminate H; try lia;
      try reflexivity. destruct H as [m H]. discriminate H.
  - rewrite (get_picture_maker_AUTO _ _ _ _ _ Hr), get_picture_maker_PORTRAIT.
    (split; [|split]); split; intros H; try discriminate H; try lia; eauto.
  - rewrite (get_picture_maker_AUTO _ _ _ _ _ Hr), get_picture_maker_LANDSCAPE.
    (split; [|split]); split; intros H; try discriminate H; try lia; eauto.
  - rewrite (get_picture_maker_propagates _ _ _ _ _ Hr).
    (split; [|split]); split; intros H; try discriminate H; try lia;
      try reflexivity. destruct H as [m H]. discriminate H.
Qed.

(** X8.  Whenever a maker is returned it holds the captures unchanged and
    in their order, and its canvas has the two sides of the paper format
    times 600, in one order or the other. *)
Theorem get_picture_maker_result (maker_cv2 force_pil : bool)
    (captures : list Image) (orientation : string) (a b : Z) (m : PictureMaker) :
  get_picture_maker maker_cv2 captures orientation (a, b) force_pil = Ok m ->
  maker_images m = captures /\
  ((maker_width m = Z.min a b * 600 /\ maker_height m = Z.max a b * 600) \/
   (maker_width m = Z.max a b * 600 /\ maker_height m = Z.min a b * 600)).
Proof.
  unfold get_picture_maker. destruct (negb _); [discriminate|].
  destruct (if String.eqb orientation AUTO then _ else _) as [o|e];
    [|discriminate].
  rewrite bind_Ok. cbn [fst snd]. rewrite paper_portrait. cbn [fst snd].
  destruct (String.eqb o LANDSCAPE), (negb maker_cv2 || force_pil);
    intros [= <-]; cbn; auto.
Qed.

Lemma get_picture_maker_result_witness :
  maker_images (PilPictureMaker 3000 1800 [tall_capture]) = [tall_capture] /\
  ((maker_width (PilPictureMaker 3000 1800 [tall_capture]) = Z.min 3 5 * 600 /\
    maker_height (PilPictureMaker 3000 1800 [tall_capture]) = Z.max 3 5 * 600) \/
   (maker_width (PilPictureMaker 3000 1800 [tall_capture]) = Z.max 3 5 * 600 /\
    maker_height (PilPictureMaker 3000 1800 [tall_capture]) = Z.min 3 5 * 600)).
Proof.
  apply (get_picture_maker_result false false [tall_capture] LANDSCAPE 3 5).
  reflexivity.
Defined.

(** X9.  With AUTO the canvas follows the first capture for one or four
    captures and runs across it for two or three: the call is the call
    with the orientation the first capture has, respectively the other
    one. *)
Theorem auto_orientation_canvas (maker_cv2 force_pil : bool) (c0 : Image)
    (rest : list Image) (paper_format : Z * Z) :
  let captures := c0 :: rest in
  let is_portrait := fst (im_size c0) <? snd (im_size c0) in
  (len captures = 1 \/ len captures = 4 ->
   get_picture_maker maker_cv2 captures AUTO paper_format force_pil =
   get_picture_maker maker_cv2 captures
     (if is_portrait then PORTRAIT else LANDSCAPE) paper_format force_pil) /\
  (len captures = 2 \/ len captures = 3 ->
   get_picture_maker maker_cv2 captures AUTO paper_format force_pil =
   get_picture_maker maker_cv2 captures
     (if is_portrait then LANDSCAPE else PORTRAIT) paper_format force_pil).
Proof.
  intros captures is_portrait. subst captures is_portrait.
  split; intros Hlen; apply get_picture_maker_AUTO.
  - now apply get_best_orientation_1_4.
  - now apply get_best_orientation_2_3.
Qed.

Lemma auto_orientation_canvas_witness :
  get_picture_maker false [tall_capture; square_capture] AUTO (4, 6) false =
  get_picture_maker false [tall_capture; square_capture] LANDSCAPE (4, 6) false.
Proof.
  apply (proj2 (auto_orientation_canvas false false tall_capture
                  [square_capture] (4, 6))).
  left. reflexivity.
Defined.

(** ** set_picto_color *)

Lemma nth_map_seq {A : Type} (f : nat -> A) (n i : nat) (d : A) :
  (i < n)%nat -> nth i (map f (seq 0 n)) d = f i.
Proof.
  intros Hi.
  rewrite (nth_indep _ d (f 0%nat)) by (now rewrite length_map, length_seq).
  rewrite map_nth. now rewrite seq_nth.
Qed.

Lemma colorize_ramp_nth (black white : Z) (i : nat) :
  (i < 255)%nat ->
  nth i (colorize_ramp black white) 0 =
    black + Z.of_nat i * (white - black) / 255.
Proof.
  intros Hi. unfold colorize_ramp.
  rewrite app_nth1 by (now rewrite length_map, length_seq).
  now rewrite nth_map_seq.
Qed.

(** The ramp at a gray level of the 8-bit range. *)
Lemma lookup_colorize_ramp (black white g : Z) :
  0 <= g <= 255 ->
  lookup (colorize_ramp black white) g = clip8 (black + g * (white - black) / 255).
Proof.
  intros Hg. destruct (Z.eq_dec g 255) as [->|Hne].
  - rewrite colorize_ramp_white. f_equal.
    rewrite Z.mul_comm, Z.div_mul by discriminate. lia.
  - unfold lookup. rewrite colorize_ramp_nth by lia.
    now rewrite Z2Nat.id by lia.
Qed.

Lemma ramp_between (black white g : Z) :
  0 <= g <= 255 ->
  Z.min black white <= black + g * (white - black) / 255 <= Z.max black white.
Proof.
  intros Hg.
  pose proof (Z.div_mod (g * (white - black)) 255 ltac:(discriminate)) as Hd.
  pose proof (Z.mod_pos_bound (g * (white - black)) 255 ltac:(lia)) as Hm.
  nia.
Qed.

Lemma luma_range (r g b : Z) :
  0 <= r <= 255 -> 0 <= g <= 255 -> 0 <= b <= 255 -> 0 <= luma r g b <= 255.
Proof.
  intros Hr Hg Hb. unfold luma. rewrite Z.shiftr_div_pow2 by lia.
  change (2 ^ 16) with 65536. split.
  - apply Z.div_pos; lia.
  - apply Z.lt_succ_r. apply Z.div_lt_upper_bound; lia.
Qed.

Lemma luma_gray (v : Z) : luma v v v = v.
Proof.
  unfold luma. rewrite Z.shiftr_div_pow2 by lia. change (2 ^ 16) with 65536.
  symmetry. apply (Z.div_unique _ _ _ 32768); lia.
Qed.

Lemma set_picto_color_bg (im : Image) (color : Color) (bg_color : option Color) :
  exists bg, set_picto_color im color bg_color = set_picto_color im color (Some bg).
Proof.
  destruct bg_color as [bg|].
  - now exists bg.
  - destruct color as [[r g] b]. eexists. apply set_picto_color_default.
Qed.

Lemma set_picto_color_fewer_bands (im : Image) (color : Color)
    (bg_color : option Color) :
  mode im = L \/ mode im = LA \/ mode im = RGB ->
  set_picto_color im color bg_color = Raise ValueError.
Proof.
  unfold mode, set_picto_color, Image_split. intros Hm.
  destruct (im_data im); cbn [unpack4 bind]; try reflexivity.
  destruct Hm as [Hm|[Hm|Hm]]; discriminate Hm.
Qed.

(** X10.  An image of mode L, LA or RGB cannot be recoloured: it has
    fewer than four bands, so the four-way unpacking of its bands fails
    with ValueError, whatever the colours. *)
Theorem set_picto_color_needs_alpha (im : Image) (color : Color)
    (bg_color : option Color) :
  mode im = L \/ mode im = LA \/ mode im = RGB ->
  set_picto_color im color bg_color = Raise ValueError.
Proof. apply set_picto_color_fewer_bands. Qed.

Lemma set_picto_color_needs_alpha_witness :
  set_picto_color tall_capture (200, 100, 0) (Some (0, 0, 0)) = Raise ValueError.
Proof.
  apply (set_picto_color_needs_alpha tall_capture (200, 100, 0) (Some (0, 0, 0))).
  right. right. reflexivity.
Defined.

(** X11.  A white pixel of the pictogram (gray level 255) becomes exactly
    the foreground colour, for channels in 0..255, and keeps its alpha,
    whatever the background colour is or whether one is given. *)
Theorem set_picto_color_white_pixel (im : Image) (r g b : Z)
    (bg_color : option Color) (px : list Pixel) (i : nat) (r0 g0 b0 a0 : Z) :
  0 <= r <= 255 -> 0 <= g <= 255 -> 0 <= b <= 255 ->
  im_data im = DataRGBA px ->
  nth_error px i = Some (r0, g0, b0, a0) ->
  luma r0 g0 b0 = 255 ->
  exists out opx,
    set_picto_color im (r, g, b) bg_color = Ok out /\
    im_data out = DataRGBA opx /\
    nth_error opx i = Some (r, g, b, a0).
Proof.
  intros Hr Hg Hb Hd Hi Hl.
  destruct (set_picto_color_bg im (r, g, b) bg_color) as [[[br bg] bb] ->].
  rewrite (set_picto_color_RGBA _ _ _ _ Hd).
  eexists. eexists. split; [reflexivity|]. split; [reflexivity|].
  rewrite nth_error_map, Hi. cbn [option_map]. rewrite Hl.
  unfold colorize_pixel. rewrite !colorize_ramp_white.
  rewrite !clip8_id by lia. reflexivity.
Qed.

Lemma set_picto_color_white_pixel_witness :
  exists out opx,
    set_picto_color (mkImage 1 1 (DataRGBA [(255, 255, 255, 90)]))
      (200, 100, 0) None = Ok out /\
    im_data out = DataRGBA opx /\
    nth_error opx 0 = Some (200, 100, 0, 90).
Proof.
  apply (set_picto_color_white_pixel
           (mkImage 1 1 (DataRGBA [(255, 255, 255, 90)])) 200 100 0 None
           [(255, 255, 255, 90)] 0%nat 255 255 255 90);
    try (split; discriminate); reflexivity.
Defined.

(** X12.  On 8-bit data no colour is invented: with both colours and all
    input channels in 0..255, each channel of each output pixel lies
    between the background's and the foreground's value of that channel,
    and there are as many output pixels as input pixels. *)
Theorem set_picto_color_between (im : Image) (fr fg fb br bg bb : Z)
    (px : list Pixel) :
  0 <= fr <= 255 -> 0 <= fg <= 255 -> 0 <= fb <= 255 ->
  0 <= br <= 255 -> 0 <= bg <= 255 -> 0 <= bb <= 255 ->
  im_data im = DataRGBA px ->
  Forall (fun p : Pixel =>
            let '(r, g, b, _) := p in
            0 <= r <= 255 /\ 0 <= g <= 255 /\ 0 <= b <= 255) px ->
  exists out opx,
    set_picto_color im (fr, fg, fb) (Some (br, bg, bb)) = Ok out /\
    im_data out = DataRGBA opx /\
    List.length opx = List.length px /\
    Forall (fun p : Pixel =>
              let '(r, g, b, _) := p in
              Z.min br fr <= r <= Z.max br fr /\
              Z.min bg fg <= g <= Z.max bg fg /\
              Z.min bb fb <= b <= Z.max bb fb) opx.
Proof.
  intros Hfr Hfg Hfb Hbr Hbg Hbb Hd Hpx.
  rewrite (set_picto_color_RGBA _ _ _ _ Hd).
  eexists. eexists. split; [reflexivity|]. split; [reflexivity|].
  split; [apply length_map|].
  apply Forall_map. revert Hpx. apply Forall_impl.
  intros [[[r g] b] a] (Hr & Hg & Hb).
  pose proof (luma_range r g b Hr Hg Hb) as Hl.
  unfold colorize_pixel. rewrite !lookup_colorize_ramp by exact Hl.
  pose proof (ramp_between br fr _ Hl). pose proof (ramp_between bg fg _ Hl).
  pose proof (ramp_between bb fb _ Hl).
  rewrite !clip8_id by lia. auto.
Qed.

Lemma set_picto_color_between_witness :
  exists out opx,
    set_picto_color arrow (200, 100, 0) (Some (10, 20, 30)) = Ok out /\
    im_data out = DataRGBA opx /\
    List.length opx = 2%nat /\
    Forall (fun p : Pixel =>
              let '(r, g, b, _) := p in
              Z.min 10 200 <= r <= Z.max 10 200 /\
              Z.min 20 100 <= g <= Z.max 20 100 /\
              Z.min 30 0 <= b <= Z.max 30 0) opx.
Proof.
  apply (set_picto_color_between arrow 200 100 0 10 20 30
           [(255, 0, 0, 255); (0, 0, 255, 128)]);
    try (split; discriminate); try reflexivity.
  repeat constructor; discriminate.
Defined.

Lemma map_fixed {A : Type} (f : A -> A) (l : list A) :
  Forall (fun a => f a = a) l -> map f l = l.
Proof.
  induction 1 as [|a l Ha _ IH]; simpl; [reflexivity | now rewrite Ha, IH].
Qed.

(** X13.  Recolouring to white on black changes nothing in a gray-scale
    RGBA image with 8-bit levels; black is also the background white gets
    by default, so the same holds with no background given. *)
Theorem set_picto_color_white_on_black (im : Image) (px : list Pixel) :
  im_data im = DataRGBA px ->
  Forall (fun p : Pixel =>
            let '(r, g, b, _) := p in r = g /\ g = b /\ 0 <= r <= 255) px ->
  set_picto_color im (255, 255, 255) (Some (0, 0, 0)) = Ok im /\
  set_picto_color im (255, 255, 255) None = Ok im.
Proof.
  intros Hd Hpx.
  assert (H : set_picto_color im (255, 255, 255) (Some (0, 0, 0)) = Ok im).
  { rewrite (set_picto_color_RGBA _ _ _ _ Hd). f_equal.
    destruct im as [w h d]. cbn [im_data im_width im_height] in *. subst d.
    do 2 f_equal. apply map_fixed. revert Hpx. apply Forall_impl.
    intros [[[r g] b] a] (<- & <- & Hr). rewrite luma_gray.
    unfold colorize_pixel. rewrite !lookup_colorize_ramp by exact Hr.
    replace (0 + r * (255 - 0) / 255) with r
      by (rewrite Z.sub_0_r, Z.div_mul by discriminate; lia).
    now rewrite clip8_id by exact Hr. }
  split; [exact H|]. rewrite set_picto_color_default. exact H.
Qed.

Lemma set_picto_color_white_on_black_witness :
  set_picto_color (mkImage 2 1 (DataRGBA [(0, 0, 0, 7); (90, 90, 90, 200)]))
    (255, 255, 255) None =
  Ok (mkImage 2 1 (DataRGBA [(0, 0, 0, 7); (90, 90, 90, 200)])).
Proof.
  apply (set_picto_color_white_on_black
           (mkImage 2 1 (DataRGBA [(0, 0, 0, 7); (90, 90, 90, 200)]))
           [(0, 0, 0, 7); (90, 90, 90, 200)]).
  - reflexivity.
  - repeat constructor; discriminate.
Defined.

(** ** get_filename *)

Lemma append_assoc (a b c : string) : ((a ++ b) ++ c)%string = (a ++ b ++ c)%string.
Proof. induction a as [|ch a IH]; simpl; [reflexivity | now rewrite IH]. Qed.

Lemma append_inj_l (p a b : string) : (p ++ a)%string = (p ++ b)%string -> a = b.
Proof.
  induction p as [|ch p IH]; simpl; intros H; [exact H|].
  injection H as H. now apply IH.
Qed.

Lemma ends_with_slash_append (s t : string) :
  t <> EmptyString -> ends_with_slash (s ++ t) = ends_with_slash t.
Proof.
  intros Ht. induction s as [|ch s IH]; [reflexivity|].
  cbn [append]. cbn [ends_with_slash].
  destruct (s ++ t)%string eqn:Hst.
  - destruct s; [simpl in Hst; contradiction | discriminate Hst].
  - exact IH.
Qed.

(** X14.  For a package directory that is neither empty nor ends with a
    separator, the path of a relative name is the directory, then
    [/assets/], then the name. *)
Theorem get_filename_relative (W : World) (name : string) :
  package_dir W <> ""%string ->
  ends_with_slash (package_dir W) = false ->
  starts_with_slash name = false ->
  get_filename W name = (package_dir W ++ "/assets/" ++ name)%string.
Proof.
  intros Hne Hend Hrel. unfold get_filename.
  assert (H1 : osp_join (package_dir W) "assets" =
               (package_dir W ++ "/assets")%string).
  { unfold osp_join. cbn [starts_with_slash Ascii.eqb].
    apply String.eqb_neq in Hne. rewrite Hne, Hend. reflexivity. }
  rewrite H1. unfold osp_join. rewrite Hrel.
  rewrite ends_with_slash_append by discriminate.
  replace (String.eqb (package_dir W ++ "/assets") "") with false.
  - change (ends_with_slash "/assets") with false. cbn [orb].
    now rewrite append_assoc.
  - symmetry. apply String.eqb_neq. destruct (package_dir W); discriminate.
Qed.

Lemma get_filename_relative_witness :
  get_filename sample_world "layout1.png" =
    "/opt/pibooth/pictures/assets/layout1.png"%string.
Proof.
  apply (get_filename_relative sample_world "layout1.png");
    [discriminate | reflexivity | reflexivity].
Defined.

(** X15.  A name that starts with the separator is not confined to the
    asset directory: its path is the name itself. *)
Theorem get_filename_absolute (W : World) (name : string) :
  starts_with_slash name = true -> get_filename W name = name.
Proof. intros H. unfold get_filename, osp_join at 1. now rewrite H. Qed.

Lemma get_filename_absolute_witness :
  get_filename sample_world "/tmp/logo.png" = "/tmp/logo.png"%string.
Proof.
  apply (get_filename_absolute sample_world "/tmp/logo.png"). reflexivity.
Defined.

(** X16.  Two relative names are sent to the same path only if they are
    the same name, whatever the package directory. *)
Theorem get_filename_injective (W : World) (name name' : string) :
  starts_with_slash name = false ->
  starts_with_slash name' = false ->
  get_filename W name = get_filename W name' ->
  name = name'.
Proof.
  intros Hn Hn'. unfold get_filename.
  set (d := osp_join (package_dir W) "assets").
  unfold osp_join. rewrite Hn, Hn'.
  destruct (_ || _); intros H.
  - now apply append_inj_l in H.
  - apply append_inj_l in H. now injection H.
Qed.

Lemma get_filename_injective_witness :
  get_filename sample_world "layout1.png" <>
  get_filename sample_world "layout2.png".
Proof.
  intros H.
  apply (get_filename_injective sample_world "layout1.png" "layout2.png")
    in H; [discriminate H | reflexivity | reflexivity].
Defined.

(** ** Grids read in place *)

Lemma map_add_seq (k n : nat) : map (fun i => (k + i)%nat) (seq 0 n) = seq k n.
Proof.
  revert k. induction n as [|n IH]; intros k; [reflexivity|].
  cbn [seq map]. rewrite Nat.add_0_r. f_equal.
  rewrite <- seq_shift, map_map, <- (IH (S k)).
  apply map_ext. intros i. lia.
Qed.

Lemma rows_index (w h s : nat) :
  flat_map (fun j => map (fun i => (j * w + i)%nat) (seq 0 w)) (seq s h) =
  seq (s * w) (h * w).
Proof.
  revert s. induction h as [|h IH]; intros s; [reflexivity|].
  cbn [seq flat_map]. rewrite IH, map_add_seq.
  replace (S h * w)%nat with (w + h * w)%nat by lia.
  rewrite seq_app. do 2 f_equal. lia.
Qed.

Lemma map_flat_map {A B C : Type} (g : B -> C) (f : A -> list B) (l : list A) :
  map g (flat_map f l) = flat_map (fun a => map g (f a)) l.
Proof.
  induction l as [|a l IH]; simpl; [reflexivity|]. now rewrite map_app, IH.
Qed.

Lemma flat_map_ext_in {A B : Type} (f g : A -> list B) (l : list A) :
  (forall a, In a l -> f a = g a) -> flat_map f l = flat_map g l.
Proof.
  induction l as [|a l IH]; simpl; intros H; [reflexivity|].
  rewrite H by auto. f_equal. apply IH. auto.
Qed.

(** The row-major position of each coordinate of a grid. *)
Lemma coords_index (w h : N) :
  map (fun xy : Z * Z => Z.to_nat (snd xy * Z.of_N w + fst xy)) (coords w h) =
  seq 0 (N.to_nat h * N.to_nat w).
Proof.
  unfold coords. rewrite map_flat_map.
  change (seq 0 (N.to_nat h * N.to_nat w))
    with (seq (0 * N.to_nat w) (N.to_nat h * N.to_nat w)).
  rewrite <- (rows_index (N.to_nat w) (N.to_nat h) 0).
  apply flat_map_ext_in. intros j _. rewrite map_map.
  apply map_ext. intros i. cbn [fst snd]. nia.
Qed.

Lemma coords_in_grid (w h : N) (x y : Z) :
  In (x, y) (coords w h) -> 0 <= x < Z.of_N w /\ 0 <= y < Z.of_N h.
Proof.
  unfold coords. rewrite in_flat_map. intros [j [Hj Hin]].
  rewrite in_map_iff in Hin. destruct Hin as [i [[= <- <-] Hi]].
  rewrite in_seq in Hj, Hi. lia.
Qed.

Lemma map_nth_seq {A : Type} (l : list A) (d : A) :
  map (fun i => nth i l d) (seq 0 (List.length l)) = l.
Proof.
  induction l as [|a l IH]; [reflexivity|].
  cbn [List.length seq map nth]. f_equal.
  rewrite <- seq_shift, map_map. exact IH.
Qed.

(** Reading a full grid in place gives the grid back. *)
Lemma remap_in_place {A : Type} (zero : A) (w h : N) (px : list A)
    (f : Z * Z -> Z * Z) :
  (forall xy, f xy = xy) ->
  len px = Z.of_N w * Z.of_N h ->
  remap zero w h px w h f = px.
Proof.
  intros Hf Hlen. unfold remap.
  rewrite (map_ext_in _
             (fun xy => nth (Z.to_nat (snd xy * Z.of_N w + fst xy)) px zero)).
  - rewrite <- (map_map (fun xy : Z * Z => Z.to_nat (snd xy * Z.of_N w + fst xy))
                  (fun i => nth i px zero)).
    rewrite coords_index.
    replace (N.to_nat h * N.to_nat w)%nat with (List.length px)
      by (unfold len in Hlen; lia).
    apply map_nth_seq.
  - intros [x y] Hin. rewrite Hf. apply coords_in_grid in Hin.
    unfold pixel_at. cbn [fst snd].
    replace ((0 <=? x) && (x <? Z.of_N w) && (0 <=? y) && (y <? Z.of_N h))
      with true; [reflexivity|].
    symmetry. rewrite !andb_true_iff, !Z.leb_le, !Z.ltb_lt. lia.
Qed.

(** ** get_pygame_image *)

Lemma Color_eqb_eq (c d : Color) : Color_eqb c d = true <-> c = d.
Proof.
  destruct c as [[r g] b], d as [[r' g'] b']. unfold Color_eqb.
  rewrite !andb_true_iff, !Z.eqb_eq. split.
  - intros [[-> ->] ->]. reflexivity.
  - intros [= -> -> ->]. auto.
Qed.

(** Cropping an image to its own box gives the image back. *)
Lemma Image_crop_whole (im : Image) (px : list Pixel) :
  im_data im = DataRGBA px ->
  len px = Z.of_N (im_width im) * Z.of_N (im_height im) ->
  Image_crop im (0, 0, Z.of_N (im_width im), Z.of_N (im_height im)) = im.
Proof.
  intros Hd Hlen.
  unfold Image_crop, data_remap. rewrite Hd, !Z.sub_0_r, !N2Z.id.
  rewrite remap_in_place.
  - destruct im as [w h d]. cbn [im_data im_width im_height] in *. now subst d.
  - intros [x y]. f_equal; lia.
  - exact Hlen.
Qed.

Section LoaderFurther.

Context {P : Primitives}.

(** An RGBA image asked for at its own size goes through crop, resize and
    surface construction unchanged. *)
Lemma own_size_pipeline (im : Image) (px : list Pixel) (crop : bool)
    (filter : Filter) :
  im_data im = DataRGBA px ->
  len px = Z.of_N (im_width im) * Z.of_N (im_height im) ->
  (0 < im_width im)%N -> (0 < im_height im)%N ->
  (pil_image <-
     (if crop
      then box <- new_size_by_croping_ratio (im_size im) (im_size im) ;;
           Ok (Image_crop im box)
      else Ok im) ;;
   new_size <- new_size_keep_aspect_ratio (im_size pil_image) (im_size im) ;;
   pil_image <- Image_resize pil_image new_size filter ;;
   image_fromstring (im_data pil_image) (im_size pil_image))
  = Ok (mkSurface (im_width im) (im_height im) true px).
Proof.
  intros Hd Hlen Hw Hh.
  replace (if crop
           then box <- new_size_by_croping_ratio (im_size im) (im_size im) ;;
                Ok (Image_crop im box)
           else Ok im) with (Ok im).
  - rewrite bind_Ok. unfold im_size at 1 2.
    rewrite new_size_keep_aspect_ratio_same, bind_Ok by lia.
    change (Z.of_N (im_width im), Z.of_N (im_height im)) with (im_size im).
    rewrite Image_resize_same, bind_Ok.
    unfold image_fromstring, im_size. rewrite Hd.
    replace ((Z.of_N (im_width im) <? 1) || (Z.of_N (im_height im) <? 1))
      with false by (symmetry; apply orb_false_iff; rewrite !Z.ltb_ge; lia).
    rewrite Hlen, Z.eqb_refl, !N2Z.id. reflexivity.
  - destruct crop; [|reflexivity]. unfold im_size.
    rewrite new_size_by_croping_ratio_same, bind_Ok by lia.
    now rewrite (Image_crop_whole im px).
Qed.

(** X17.  Without a target size there is no placeholder: when the asset
    file does not exist the call fails with the FileNotFoundError of the
    loading, whatever the flags and colours. *)
Theorem native_size_needs_asset (W : World) (name : string)
    (antialiasing hflip vflip crop : bool) (angle : Z) (color : Color)
    (bg_color : option Color) :
  files W (get_filename W name) = None ->
  get_pygame_image W name None antialiasing hflip vflip crop angle
    color bg_color = Raise IOError.
Proof.
  intros Hf. unfold get_pygame_image, image_load. now rewrite Hf.
Qed.

(** X18.  An asset file that is not an image makes every call fail: with
    the decode error of Pillow when a size is given, with the pygame error
    when none is, whatever the size, the flags and the colours. *)
Theorem undecodable_asset_fails (W : World) (name : string)
    (size : option (Z * Z)) (antialiasing hflip vflip crop : bool) (angle : Z)
    (color : Color) (bg_color : option Color) :
  files W (get_filename W name) = Some Garbage ->
  get_pygame_image W name size antialiasing hflip vflip crop angle
    color bg_color =
    Raise (match size with Some _ => IOError | None => PygameError end).
Proof.
  intros Hf. unfold get_pygame_image, image_load, osp_isfile, Image_open.
  rewrite Hf. now destruct size.
Qed.

(** X19.  With the default colour white nothing is recoloured: the
    background colour passed along has no effect on the result, with or
    without a size. *)
Theorem white_ignores_bg_color (W : World) (name : string)
    (size : option (Z * Z)) (antialiasing hflip vflip crop : bool) (angle : Z)
    (bg_color bg_color' : option Color) :
  get_pygame_image W name size antialiasing hflip vflip crop angle
    (255, 255, 255) bg_color =
  get_pygame_image W name size antialiasing hflip vflip crop angle
    (255, 255, 255) bg_color'.
Proof. unfold get_pygame_image. now destruct size. Qed.

(** X20.  Asking for a colour other than white on an asset of mode L,
    LA or RGB fails with ValueError when a size is given: the recolouring
    needs four bands. *)
Theorem recolour_needs_alpha_asset (W : World) (name : string) (im : Image)
    (size : Z * Z) (antialiasing hflip vflip crop : bool) (angle : Z)
    (color : Color) (bg_color : option Color) :
  files W (get_filename W name) = Some (Picture im) ->
  mode im = L \/ mode im = LA \/ mode im = RGB ->
  color <> (255, 255, 255) ->
  get_pygame_image W name (Some size) antialiasing hflip vflip crop angle
    color bg_color = Raise ValueError.
Proof.
  intros Hf Hm Hc. unfold get_pygame_image, osp_isfile, Image_open.
  rewrite Hf, bind_Ok.
  replace (Color_eqb color (255, 255, 255)) with false.
  - cbn [negb]. now rewrite set_picto_color_fewer_bands by exact Hm.
  - symmetry. apply not_true_is_false. now rewrite Color_eqb_eq.
Qed.

End LoaderFurther.

Section LoaderOwnSize.

Context {P : Primitives}.

(** X21.  An RGBA asset asked for at exactly its own size, in the default
    colour and with no flip and no rotation, comes back pixel for pixel,
    with or without crop and with either filter. *)
Theorem asset_at_own_size (W : World) (name : string) (im : Image)
    (px : list Pixel) (antialiasing crop : bool) (bg_color : option Color) :
  files W (get_filename W name) = Some (Picture im) ->
  im_data im = DataRGBA px ->
  len px = Z.of_N (im_width im) * Z.of_N (im_height im) ->
  (0 < im_width im)%N -> (0 < im_height im)%N ->
  get_pygame_image W name (Some (im_size im)) antialiasing false false crop 0
    (255, 255, 255) bg_color =
    Ok (mkSurface (im_width im) (im_height im) true px).
Proof.
  intros Hf Hd Hlen Hw Hh. unfold get_pygame_image, osp_isfile, Image_open.
  rewrite Hf, bind_Ok. change (Color_eqb (255, 255, 255) (255, 255, 255)) with true.
  cbn [negb]. rewrite bind_Ok.
  rewrite (own_size_pipeline im px crop _ Hd Hlen Hw Hh). reflexivity.
Qed.

(** X22.  Tinting keeps the transparency mask of a template: an RGBA
    asset asked for at its own size in a colour other than white, with no
    flip and no rotation, gives a surface of that size with per-pixel
    alpha whose alpha values are those of the asset, in order. *)
Theorem tinted_asset_keeps_mask (W : World) (name : string) (im : Image)
    (px : list Pixel) (antialiasing crop : bool) (color : Color)
    (bg_color : option Color) :
  files W (get_filename W name) = Some (Picture im) ->
  im_data im = DataRGBA px ->
  len px = Z.of_N (im_width im) * Z.of_N (im_height im) ->
  (0 < im_width im)%N -> (0 < im_height im)%N ->
  color <> (255, 255, 255) ->
  exists s,
    get_pygame_image W name (Some (im_size im)) antialiasing false false crop 0
      color bg_color = Ok s /\
    get_size s = im_size im /\
    surf_alpha s = true /\
    map snd (surf_pixels s) = map snd px.
Proof.
  intros Hf Hd Hlen Hw Hh Hc. unfold get_pygame_image, osp_isfile, Image_open.
  rewrite Hf, bind_Ok.
  replace (Color_eqb color (255, 255, 255)) with false
    by (symmetry; apply not_true_is_false; now rewrite Color_eqb_eq).
  cbn [negb].
  destruct (set_picto_color_bg im color bg_color) as [bg ->].
  rewrite (set_picto_color_RGBA _ _ _ _ Hd), bind_Ok.
  set (px1 := map _ px).
  set (im1 := mkImage (im_width im) (im_height im) (DataRGBA px1)).
  change (im_size im) with (im_size im1).
  rewrite (own_size_pipeline im1 px1 crop _ eq_refl).
  - rewrite bind_Ok. change (negb (0 =? 0)) with false. cbn [orb].
    eexists. split; [reflexivity|]. split; [reflexivity|].
    split; [reflexivity|]. cbn [surf_pixels]. subst px1.
    rewrite map_map. apply map_ext. now intros [[[r g] b] a].
  - subst im1 px1. cbn [im_width im_height]. unfold len in *.
    now rewrite length_map.
  - exact Hw.
  - exact Hh.
Qed.

End LoaderOwnSize.

(** ** Evaluation of the further properties *)

Lemma native_size_needs_asset_witness :
  get_pygame_image (P := sample_primitives) sample_world "layout9.png" None
    true false false false 0 (255, 255, 255) None = Raise IOError.
Proof.
  apply (native_size_needs_asset (P := sample_primitives) sample_world
           "layout9.png" true false false false 0 (255, 255, 255) None).
  reflexivity.
Defined.

Lemma undecodable_asset_fails_witness :
  get_pygame_image (P := sample_primitives) sample_world "notes.png"
    (Some (640, 480)) true false false false 0 (255, 255, 255) None
  = Raise IOError.
Proof.
  apply (undecodable_asset_fails (P := sample_primitives) sample_world
           "notes.png" (Some (640, 480)) true false false false 0
           (255, 255, 255) None).
  reflexivity.
Defined.

Lemma recolour_needs_alpha_asset_witness :
  get_pygame_image (P := sample_primitives) gallery_world "photo.png"
    (Some (20, 30)) true false false false 0 (200, 100, 0) None
  = Raise ValueError.
Proof.
  apply (recolour_needs_alpha_asset (P := sample_primitives) gallery_world
           "photo.png" tall_capture (20, 30) true false false false 0
           (200, 100, 0) None);
    [reflexivity | right; right; reflexivity | discriminate].
Defined.

Lemma asset_at_own_size_witness :
  get_pygame_image (P := sample_primitives) sample_world "arrow.png"
    (Some (2, 1)) true false false true 0 (255, 255, 255) None =
  Ok (mkSurface 2 1 true [(255, 0, 0, 255); (0, 0, 255, 128)]).
Proof.
  apply (asset_at_own_size (P := sample_primitives) sample_world "arrow.png"
           arrow [(255, 0, 0, 255); (0, 0, 255, 128)] true true None);
    reflexivity.
Defined.

Lemma tinted_asset_keeps_mask_witness :
  exists s,
    get_pygame_image (P := sample_primitives) sample_world "arrow.png"
      (Some (2, 1)) false false false true 0 (200, 100, 0) (Some (0, 0, 0))
      = Ok s /\
    get_size s = (2, 1) /\
    surf_alpha s = true /\
    map snd (surf_pixels s) = [255; 128].
Proof.
  apply (tinted_asset_keeps_mask (P := sample_primitives) sample_world
           "arrow.png" arrow [(255, 0, 0, 255); (0, 0, 255, 128)] false true
           (200, 100, 0) (Some (0, 0, 0)));
    try reflexivity. discriminate.
Defined.

(** ** get_main_color *)

Section MainColorProperties.

Context {P : Primitives}.

(** X23.  get_main_color fails with the decode error of Pillow exactly
    when the path is not a file that decodes to an image, whichever the
    default filter is. *)
Theorem get_main_color_decode_error (default_filter : Filter) (W : World)
    (image_path : string) :
  get_main_color default_filter W image_path = Raise IOError <->
  (forall im, files W image_path <> Some (Picture im)).
Proof.
  unfold get_main_color, Image_open.
  destruct (files W image_path) as [[im|]|]; cbn [bind].
  - split; [|intros H; now contradiction (H im)].
    destruct (Image_resize im (1, 1) default_filter) as [mono|e] eqn:Hr;
      cbn [bind].
    + unfold Image_getpixel.
      match goal with
      | |- context [if ?c then _ else _] => destruct c
      end; [|discriminate].
      destruct (nth_pixel _ _); discriminate.
    + apply Image_resize_raises in Hr. subst e. discriminate.
  - split; [intros _ im; discriminate | reflexivity].
  - split; [intros _ im; discriminate | reflexivity].
Qed.

(** X24.  The main colour of an image of one pixel is that pixel. *)
Theorem get_main_color_single_pixel (default_filter : Filter) (W : World)
    (image_path : string) (im : Image) (v : PixelValue) :
  files W image_path = Some (Picture im) ->
  im_width im = 1%N -> im_height im = 1%N ->
  nth_pixel (im_data im) 0 = Some v ->
  get_main_color default_filter W image_path = Ok v.
Proof.
  intros Hf Hw Hh Hv. unfold get_main_color, Image_open. rewrite Hf, bind_Ok.
  replace (1, 1) with (im_size im) by (unfold im_size; now rewrite Hw, Hh).
  rewrite Image_resize_same, bind_Ok.
  unfold Image_getpixel. rewrite Hw, Hh. cbn. now rewrite Hv.
Qed.

End MainColorProperties.

Lemma get_main_color_single_pixel_witness :
  get_main_color (P := sample_primitives) NEAREST
    {| package_dir := "/opt/pibooth/pictures";
       files := fun _ => Some (Picture (mkImage 1 1 (DataRGB [(12, 34, 56)]))) |}
    "/tmp/dot.png" = Ok (ValueRGB (12, 34, 56)).
Proof.
  apply (get_main_color_single_pixel (P := sample_primitives) NEAREST _
           "/tmp/dot.png" (mkImage 1 1 (DataRGB [(12, 34, 56)])));
    reflexivity.
Defined.

(** ** Flips and rotation as a last step *)

(** X25.  With or without a size, the flips and the rotation are a last
    step on the surface the call would return without them: they never
    decide whether the call fails, nor with which exception. *)
Theorem flip_and_rotation_last {P : Primitives} (W : World) (name : string)
    (size : option (Z * Z)) (antialiasing hflip vflip crop : bool) (angle : Z)
    (color : Color) (bg_color : option Color) :
  get_pygame_image W name size antialiasing hflip vflip crop angle
    color bg_color =
    (s <- get_pygame_image W name size antialiasing false false crop 0
            color bg_color ;;
     Ok (flip_then_rotate hflip vflip angle s)).
Proof.
  unfold get_pygame_image, flip_then_rotate.
  destruct size as [size|].
  - match goal with
    | |- bind ?r _ = _ => destruct r as [s|e]; reflexivity
    end.
  - destruct (image_load W (get_filename W name)) as [s|e]; reflexivity.
Qed.
